(** * Tool CRUD and semantic search API: record store, vector index, search pipeline

    A shallow embedding of [app/models.py], [app/schemas.py], [app/database.py],
    [app/vector_db.py], [app/crud.py] and the endpoints of [app/main.py].

    The PostgreSQL record store, the SQLAlchemy session, the Qdrant collection
    and the log are fields of one [World] that every operation threads.  Python
    exceptions are the [Raise] outcome of a state-and-exception monad, and
    [try_except] is the [try: ... except Exception:] block.  Every call that
    leaves the process (a query, a commit, a refresh, the embedding model, a
    Qdrant request) first pops one entry of the fault script [faults]: [true]
    makes that call raise.  A theorem quantified over the world therefore holds
    for every pattern of failures of the collaborators.

    The embedding model and Qdrant's nearest-neighbour search are parameters
    of the program ([encode], [qdrant_search]); what the program needs from
    the search is stated as [honours_threshold] and [honours_limit], and a
    reference implementation of both collaborators runs the concrete worlds.
    Properties are proved with a weakest-precondition calculus over the
    monad, [wp]. *)

From Stdlib Require Import ZArith QArith Ascii String List Lia.
From stdpp Require Import gmap strings list fin_maps pretty sorting.

Local Open Scope string_scope.
Local Open Scope Z_scope.

(** ** Data model ([app/models.py], [app/schemas.py]) *)

(** [tool_metadata] is a JSON object; no operation looks inside it. *)
Definition metadata : Type := list (string * string).

(** [schemas.ToolBase], shared by [ToolCreate] and [ToolUpdate].  [tags] and
    [tool_metadata] are [Optional]: [None] is Python's [None]. *)
Record ToolBase := {
  tb_name : string;
  tb_description : string;
  tb_tags : option (list string);
  tb_tool_metadata : option metadata
}.

(** A [models.Tool] object: a row of the table [tools] with its primary key.
    Timestamps are readings of the store clock. *)
Record Tool := {
  t_id : Z;
  t_name : string;
  t_description : string;
  t_tags : option (list string);
  t_tool_metadata : option metadata;
  t_created_at : Z;
  t_updated_at : Z
}.

(** A result dictionary [{"id", "name", "description", "tags", "score"}] as
    [search_tools] builds it and as the JSON column [results] stores it.  The
    only accessor the filters use is [result.get('id')]: [hit_id = None] is
    the case where that returns [None] (key missing or null); identifiers are
    integers, as [schemas.SearchResult] declares.  The float score is a
    rational: the program only ever compares it. *)
Record SearchHit := {
  hit_id : option Z;
  hit_name : string;
  hit_description : string;
  hit_tags : list string;
  hit_score : Q
}.

(** A [models.SearchHistory] object: a row of [search_history] with its key. *)
Record SearchHistory := {
  h_id : Z;
  h_query : string;
  h_results : list SearchHit;
  h_created_at : Z
}.

(** [schemas.SearchQuery]; [Field(10, ge=1, le=100)] bounds [limit], which is
    taken to be an integer (the default [10] when the request omits it). *)
Record SearchQuery := {
  sq_query : string;
  sq_limit : Z
}.

Definition SearchQuery_valid (q : SearchQuery) : Prop :=
  (1 <= Z.of_nat (String.length (sq_query q))) /\ 1 <= sq_limit q <= 100.

(** [schemas.SearchResponse]. *)
Record SearchResponse := {
  sr_query : string;
  sr_results : list SearchHit
}.

(** ** The Qdrant collection ([qdrant_client.models]) *)

(** The payload dictionary of a point.  A field is [None] when its key is
    missing; ["tool_id"] may also be present and null ([Some None]). *)
Record Payload := {
  p_name : option string;
  p_description : option string;
  p_tags : option (list string);
  p_tool_id : option (option Z)
}.

Record PointStruct := {
  point_id : Z;
  point_vector : list Q;
  point_payload : Payload
}.

Record ScoredPoint := {
  sp_id : Z;
  sp_score : Q;
  sp_payload : Payload
}.

(** ** The world *)

(** The columns of a row of [tools] other than the primary key [id], and
    likewise for [search_history]: the tables below are keyed by [id]. *)
Record ToolRow := {
  c_fields : ToolBase;
  c_created_at : Z;
  c_updated_at : Z
}.

Record HistoryRow := {
  c_query : string;
  c_results : list SearchHit;
  c_recorded_at : Z
}.

Definition Tool_of (i : Z) (r : ToolRow) : Tool :=
  {| t_id := i;
     t_name := tb_name (c_fields r);
     t_description := tb_description (c_fields r);
     t_tags := tb_tags (c_fields r);
     t_tool_metadata := tb_tool_metadata (c_fields r);
     t_created_at := c_created_at r;
     t_updated_at := c_updated_at r |}.

Definition SearchHistory_of (i : Z) (r : HistoryRow) : SearchHistory :=
  {| h_id := i; h_query := c_query r; h_results := c_results r;
     h_created_at := c_recorded_at r |}.

(** The committed content of the PostgreSQL database: both tables, their
    [SERIAL] sequences and the clock behind [func.now()]. *)
Record Store := {
  tools : gmap Z ToolRow;
  tools_id_seq : Z;
  search_history : gmap Z HistoryRow;
  search_history_id_seq : Z;
  clock : Z
}.

(** The unit of work of a SQLAlchemy session: what [db.add], [db.delete] and
    attribute assignments on loaded objects have registered and [db.commit]
    has not yet flushed.  The session is created with [autoflush=False], so
    nothing but [commit] flushes it. *)
Inductive pending_op :=
  | PAddTool (fields : ToolBase)
  | PSetTool (tool_id : Z) (fields : ToolBase)
  | PDeleteTool (tool_id : Z)
  | PAddHistory (query : string) (results : list SearchHit)
  | PSetHistoryResults (history_id : Z) (results : list SearchHit).

Inductive level := INFO | WARNING | ERROR.

Record LogRecord := {
  levelname : level;
  message : string
}.

Record World := {
  db : Store;
  session : list pending_op;
  points : gmap Z PointStruct;
  faults : list bool;
  log : list LogRecord
}.

(** ** Exceptions and the monad *)

Inductive exn :=
  | IntegrityError
  | SQLAlchemyError
  | EmbeddingError
  | QdrantError
  | KeyError
  | TypeError
  | HTTPException (status_code : Z) (detail : string).

Inductive outcome (A : Type) :=
  | Return (a : A)
  | Raise (e : exn).
Arguments Return {A} a.
Arguments Raise {A} e.

Definition M (A : Type) : Type := World -> outcome A * World.

Definition ret {A} (a : A) : M A := fun w => (Return a, w).

Definition bind {A B} (m : M A) (k : A -> M B) : M B :=
  fun w => match m w with
           | (Return a, w') => k a w'
           | (Raise e, w') => (Raise e, w')
           end.

Definition raise {A} (e : exn) : M A := fun w => (Raise e, w).

(** [try: m  except Exception as e: h e] *)
Definition try_except {A} (m : M A) (h : exn -> M A) : M A :=
  fun w => match m w with
           | (Return a, w') => (Return a, w')
           | (Raise e, w') => h e w'
           end.

Notation "x <- m ;; k" := (bind m (fun x => k))
  (at level 100, m at next level, right associativity).
Notation "m ;;; k" := (bind m (fun _ => k))
  (at level 100, right associativity).

(** Updates of one field of the world. *)
Definition put_db (s : Store) (w : World) : World :=
  {| db := s; session := session w; points := points w;
     faults := faults w; log := log w |}.

Definition put_session (p : list pending_op) (w : World) : World :=
  {| db := db w; session := p; points := points w;
     faults := faults w; log := log w |}.

Definition put_points (p : gmap Z PointStruct) (w : World) : World :=
  {| db := db w; session := session w; points := p;
     faults := faults w; log := log w |}.

Definition put_faults (fs : list bool) (w : World) : World :=
  {| db := db w; session := session w; points := points w;
     faults := fs; log := log w |}.

Definition put_log (l : list LogRecord) (w : World) : World :=
  {| db := db w; session := session w; points := points w;
     faults := faults w; log := l |}.

Definition get_world : M World := fun w => (Return w, w).

Definition set_db (s : Store) : M unit := fun w => (Return tt, put_db s w).

Definition set_session (p : list pending_op) : M unit :=
  fun w => (Return tt, put_session p w).

Definition set_points (p : gmap Z PointStruct) : M unit :=
  fun w => (Return tt, put_points p w).

(** The next entry of the fault script; an exhausted script means no fault. *)
Definition next_fault : M bool := fun w =>
  match faults w with
  | [] => (Return false, w)
  | f :: fs => (Return f, put_faults fs w)
  end.

(** A call to a collaborator: it raises [e] when the fault script says so. *)
Definition external (e : exn) : M unit :=
  f <- next_fault ;; if f then raise e else ret tt.

Definition logger (l : level) (msg : string) : M unit := fun w =>
  (Return tt, put_log (log w ++ [{| levelname := l; message := msg |}]) w).

Definition str_exn (e : exn) : string :=
  match e with
  | IntegrityError => "IntegrityError"
  | SQLAlchemyError => "SQLAlchemyError"
  | EmbeddingError => "EmbeddingError"
  | QdrantError => "QdrantError"
  | KeyError => "KeyError"
  | TypeError => "TypeError"
  | HTTPException _ d => d
  end.

Definition str_Z (z : Z) : string := pretty z.

(** ** The SQLAlchemy session over PostgreSQL ([app/database.py]) *)

(** [db.add(obj)], [db.delete(obj)] and attribute assignment: local to the
    session, no round trip. *)
Definition db_register (op : pending_op) : M unit :=
  w <- get_world ;; set_session (session w ++ [op]).

Definition db_rollback : M unit := set_session [].

Definition db_close : M unit := set_session [].

(** [name] is [unique=True]: row [i] with tool [t] blocks the name [n] for
    every row other than [self]. *)
Definition name_conflict (n : string) (self : option Z) (i : Z) (t : ToolRow) : Prop :=
  tb_name (c_fields t) = n /\ Some i <> self.

#[global] Instance name_conflict_dec n self i t : Decision (name_conflict n self i t).
Proof. unfold name_conflict. apply _. Defined.

#[global] Instance ToolBase_eq_dec : EqDecision ToolBase.
Proof. solve_decision. Defined.

Definition with_tools (s : Store) (m : gmap Z ToolRow) (next : Z) : Store :=
  {| tools := m; tools_id_seq := next;
     search_history := search_history s;
     search_history_id_seq := search_history_id_seq s; clock := clock s |}.

Definition with_history (s : Store) (m : gmap Z HistoryRow) (next : Z) : Store :=
  {| tools := tools s; tools_id_seq := tools_id_seq s;
     search_history := m; search_history_id_seq := next; clock := clock s |}.

(** One statement of the flush.  It returns the primary keys it assigned
    (SQLAlchemy writes them into the added objects).  An [INSERT] draws its
    key from the sequence before the constraints are checked; a violated
    primary key or [unique] constraint is an [IntegrityError].  An [UPDATE] is
    only emitted when a column changed, and sets [updated_at]. *)
Definition flush_op (op : pending_op) (s : Store) : outcome (list Z) * Store :=
  match op with
  | PAddTool f =>
      let i := tools_id_seq s in
      if decide (is_Some (tools s !! i) \/
                 map_Exists (name_conflict (tb_name f) None) (tools s))
      then (Raise IntegrityError, with_tools s (tools s) (i + 1))
      else
        let row := {| c_fields := f; c_created_at := clock s;
                      c_updated_at := clock s |} in
        (Return [i], with_tools s (<[i := row]> (tools s)) (i + 1))
  | PSetTool i f =>
      match tools s !! i with
      | None => (Raise SQLAlchemyError, s)
      | Some old =>
          if decide (c_fields old = f) then (Return [], s)
          else if decide (map_Exists (name_conflict (tb_name f) (Some i)) (tools s))
          then (Raise IntegrityError, s)
          else
            let row := {| c_fields := f; c_created_at := c_created_at old;
                          c_updated_at := clock s |} in
            (Return [], with_tools s (<[i := row]> (tools s)) (tools_id_seq s))
      end
  | PDeleteTool i =>
      (Return [], with_tools s (delete i (tools s)) (tools_id_seq s))
  | PAddHistory q rs =>
      let i := search_history_id_seq s in
      if decide (is_Some (search_history s !! i))
      then (Raise IntegrityError, with_history s (search_history s) (i + 1))
      else
        let row := {| c_query := q; c_results := rs; c_recorded_at := clock s |} in
        (Return [i], with_history s (<[i := row]> (search_history s)) (i + 1))
  | PSetHistoryResults i rs =>
      match search_history s !! i with
      | None => (Raise SQLAlchemyError, s)
      | Some old =>
          let row := {| c_query := c_query old; c_results := rs;
                        c_recorded_at := c_recorded_at old |} in
          (Return [], with_history s (<[i := row]> (search_history s))
                                   (search_history_id_seq s))
      end
  end.

Fixpoint flush (ops : list pending_op) (s : Store) : outcome (list Z) * Store :=
  match ops with
  | [] => (Return [], s)
  | op :: ops' =>
      match flush_op op s with
      | (Return ids, s1) =>
          match flush ops' s1 with
          | (Return ids', s2) => (Return (ids ++ ids')%list, s2)
          | (Raise e, s2) => (Raise e, s2)
          end
      | (Raise e, s1) => (Raise e, s1)
      end
  end.

(** What a failed transaction leaves: the rows as they were, the sequence
    values spent. *)
Definition aborted (before after : Store) : Store :=
  {| tools := tools before; tools_id_seq := tools_id_seq after;
     search_history := search_history before;
     search_history_id_seq := search_history_id_seq after;
     clock := clock before |}.

Definition tick (s : Store) : Store :=
  {| tools := tools s; tools_id_seq := tools_id_seq s;
     search_history := search_history s;
     search_history_id_seq := search_history_id_seq s;
     clock := clock s + 1 |}.

(** [db.commit()]: flush the unit of work and commit, or fail and leave the
    session to be rolled back by the caller. *)
Definition db_commit : M (list Z) :=
  external SQLAlchemyError ;;;
  w <- get_world ;;
  match flush (session w) (db w) with
  | (Return ids, s') => set_db (tick s') ;;; set_session [] ;;; ret ids
  | (Raise e, s') => set_db (aborted (db w) s') ;;; raise e
  end.

(** [db.refresh(obj)] for a tool added by the last commit. *)
Definition db_refresh_tool (i : Z) : M Tool :=
  external SQLAlchemyError ;;;
  w <- get_world ;;
  match tools (db w) !! i with
  | Some r => ret (Tool_of i r)
  | None => raise SQLAlchemyError
  end.

Definition db_refresh_history (i : Z) : M SearchHistory :=
  external SQLAlchemyError ;;;
  w <- get_world ;;
  match search_history (db w) !! i with
  | Some r => ret (SearchHistory_of i r)
  | None => raise SQLAlchemyError
  end.

(** The object a commit has just inserted. *)
Definition inserted (ids : list Z) : M Z :=
  match ids with
  | [i] => ret i
  | _ => raise SQLAlchemyError
  end.

(** [db.query(models.Tool).filter(models.Tool.id == tool_id).first()] *)
Definition query_tool_first (tool_id : Z) : M (option Tool) :=
  external SQLAlchemyError ;;;
  w <- get_world ;;
  ret (Tool_of tool_id <$> tools (db w) !! tool_id).

(** [order_by(created_at.desc())]: newest first. *)
Definition newer (a b : SearchHistory) : Prop := h_created_at b <= h_created_at a.

#[global] Instance newer_dec a b : Decision (newer a b).
Proof. unfold newer. apply _. Defined.

Definition newest_first (m : gmap Z HistoryRow) : list SearchHistory :=
  merge_sort newer (uncurry SearchHistory_of <$> map_to_list m).

(** [.offset(skip).limit(limit)], for the [skip >= 0] and [limit >= 1] the
    endpoints let through; PostgreSQL rejects a negative [OFFSET] or [LIMIT]. *)
Definition page {A} (skip limit : Z) (l : list A) : list A :=
  take (Z.to_nat limit) (drop (Z.to_nat skip) l).

(** [db.query(models.SearchHistory).order_by(...).offset(skip).limit(limit).all()] *)
Definition query_history_all (skip limit : Z) : M (list SearchHistory) :=
  external SQLAlchemyError ;;;
  w <- get_world ;;
  ret (page skip limit (newest_first (search_history (db w)))).

(** The similarity floor [search_tools] passes as [score_threshold]. *)
Definition score_threshold : Q := 3 # 10.

(** Results of an endpoint after FastAPI's exception handlers. *)
Inductive http_result (A : Type) :=
  | HTTP_OK (body : A)
  | HTTP_Error (status_code : Z) (detail : string).
Arguments HTTP_OK {A} body.
Arguments HTTP_Error {A} status_code detail.

(** ** Reference collaborators

    A small embedding model and an exact nearest-neighbour search, used to run
    the program on concrete worlds.  The vector of a text counts its vowels;
    the score of two vectors is their Tanimoto similarity, a rational. *)

Fixpoint count_char (c : ascii) (text : string) : Z :=
  match text with
  | EmptyString => 0
  | String c' rest => (if Ascii.eqb c c' then 1 else 0) + count_char c rest
  end.

Definition ref_encode (text : string) : list Q :=
  (fun c => inject_Z (count_char c text)) <$> list_ascii_of_string "aeiou".

Definition dot (u v : list Q) : Q := foldr Qplus 0%Q (zip_with Qmult u v).

Definition similarity (u v : list Q) : Q :=
  let d := (dot u u + dot v v - dot u v)%Q in
  if Qeq_bool d 0 then 0%Q else Qred (dot u v / d)%Q.

Definition scored (v : list Q) (p : PointStruct) : ScoredPoint :=
  {| sp_id := point_id p; sp_score := similarity v (point_vector p);
     sp_payload := point_payload p |}.

Definition higher (a b : ScoredPoint) : Prop := (sp_score b <= sp_score a)%Q.

#[global] Instance higher_dec a b : Decision (higher a b).
Proof.
  unfold higher. destruct (Qlt_le_dec (sp_score a) (sp_score b)) as [H | H].
  - right. intros H'. exact (Qlt_not_le _ _ H H').
  - left. exact H.
Defined.

Definition above (thr : Q) (p : ScoredPoint) : Prop := Qle_bool thr (sp_score p) = true.

#[global] Instance above_dec thr p : Decision (above thr p).
Proof. unfold above. apply _. Defined.

Definition ref_search (pts : gmap Z PointStruct) (v : list Q) (limit : Z) (thr : Q)
  : list ScoredPoint :=
  take (Z.to_nat limit)
       (merge_sort higher (filter (above thr) (scored v <$> (snd <$> map_to_list pts)))).

(** ** Concrete worlds *)

Definition hammer : ToolBase :=
  {| tb_name := "hammer"; tb_description := "drives nails";
     tb_tags := Some ["tool"]; tb_tool_metadata := None |}.

Definition saw : ToolBase :=
  {| tb_name := "saw"; tb_description := "cuts wood";
     tb_tags := Some []; tb_tool_metadata := None |}.

Definition row_of (f : ToolBase) (at_time : Z) : ToolRow :=
  {| c_fields := f; c_created_at := at_time; c_updated_at := at_time |}.

Definition point_of (i : Z) (f : ToolBase) : PointStruct :=
  {| point_id := i;
     point_vector :=
       ref_encode (tb_name f ++ " " ++ tb_description f ++ " "
                   ++ String.concat " " (default [] (tb_tags f)));
     point_payload := {| p_name := Some (tb_name f);
                         p_description := Some (tb_description f);
                         p_tags := tb_tags f;
                         p_tool_id := Some (Some i) |} |}.

Definition empty_store : Store :=
  {| tools := ∅; tools_id_seq := 1;
     search_history := ∅; search_history_id_seq := 1; clock := 0 |}.

(** Two tools, both indexed. *)
Definition toolbox : Store :=
  {| tools := {[ 1 := row_of hammer 0; 2 := row_of saw 1 ]}; tools_id_seq := 3;
     search_history := ∅; search_history_id_seq := 1; clock := 2 |}.

Definition toolbox_points : gmap Z PointStruct :=
  {[ 1 := point_of 1 hammer; 2 := point_of 2 saw ]}.

Definition hammer_hit : SearchHit :=
  {| hit_id := Some 1; hit_name := "hammer"; hit_description := "drives nails";
     hit_tags := ["tool"]; hit_score := 10 # 17 |}.

Definition saw_hit : SearchHit :=
  {| hit_id := Some 2; hit_name := "saw"; hit_description := "cuts wood";
     hit_tags := []; hit_score := 7 # 10 |}.

(** The toolbox after a search for "tool for nails" was recorded and the
    hammer was then deleted from the record store only. *)
Definition toolbox_without_hammer : Store :=
  {| tools := {[ 2 := row_of saw 1 ]}; tools_id_seq := 3;
     search_history :=
       {[ 1 := {| c_query := "tool for nails"; c_results := [saw_hit; hammer_hit];
                  c_recorded_at := 2 |} ]};
     search_history_id_seq := 2; clock := 4 |}.

(** A store that holds a tool under the id [0], indexed under that id. *)
Definition zero_store : Store :=
  {| tools := {[ 0 := row_of hammer 0 ]}; tools_id_seq := 1;
     search_history := ∅; search_history_id_seq := 1; clock := 1 |}.

Definition zero_points : gmap Z PointStruct := {[ 0 := point_of 0 hammer ]}.

(** A tool without tags, and new fields for the saw. *)
Definition drill : ToolBase :=
  {| tb_name := "drill"; tb_description := "makes holes";
     tb_tags := None; tb_tool_metadata := None |}.

Definition handsaw : ToolBase :=
  {| tb_name := "handsaw"; tb_description := "cuts wood by hand";
     tb_tags := Some ["tool"]; tb_tool_metadata := None |}.

(** The collection of the toolbox with a third point whose payload has no
    "name". *)
Definition nameless_point : PointStruct :=
  {| point_id := 7; point_vector := ref_encode "tool for nails";
     point_payload := {| p_name := None; p_description := Some "no name";
                         p_tags := None; p_tool_id := Some (Some 7) |} |}.

Definition broken_points : gmap Z PointStruct :=
  <[7 := nameless_point]> toolbox_points.

(** A world at the start of a request, with the script of faults to come. *)
Definition world_of (s : Store) (pts : gmap Z PointStruct) (fs : list bool) : World :=
  {| db := s; session := []; points := pts; faults := fs; log := [] |}.

Definition nails_query : SearchQuery :=
  {| sq_query := "tool for nails"; sq_limit := 10 |}.

Section App.

(** The two collaborators the program does not implement: the sentence
    embedding model and the nearest-neighbour search of Qdrant, the latter as
    a function of the collection, the query vector, [limit] and
    [score_threshold]. *)
Variable encode : string -> list Q.
Variable qdrant_search : gmap Z PointStruct -> list Q -> Z -> Q -> list ScoredPoint.

(** ** [app/vector_db.py] *)

Definition get_embedding (text : string) : M (list Q) :=
  try_except
    (external EmbeddingError ;;;
     ret (encode text))
    (fun e =>
       logger ERROR ("Error generating embedding: " ++ str_exn e) ;;;
       raise e).

(** [' '.join(tags)]; joining [None] is a [TypeError]. *)
Definition join_tags (tags : option (list string)) : M string :=
  match tags with
  | Some l => ret (String.concat " " l)
  | None => raise TypeError
  end.

(** The text [f"{name} {description} {' '.join(tags)}"]. *)
Definition embedding_text (name description : string) (tags : list string) : string :=
  name ++ " " ++ description ++ " " ++ String.concat " " tags.

Definition client_upsert (point : PointStruct) : M unit :=
  external QdrantError ;;;
  w <- get_world ;;
  set_points (<[point_id point := point]> (points w)).

Definition client_delete (tool_id : Z) : M unit :=
  external QdrantError ;;;
  w <- get_world ;;
  set_points (delete tool_id (points w)).

Definition client_search (query_vector : list Q) (limit : Z) (threshold : Q)
  : M (list ScoredPoint) :=
  external QdrantError ;;;
  w <- get_world ;;
  ret (qdrant_search (points w) query_vector limit threshold).

Definition upsert_tool (tool_id : Z) (name description : string)
    (tags : option (list string)) : M bool :=
  try_except
    (joined <- join_tags tags ;;
     let text := name ++ " " ++ description ++ " " ++ joined in
     embedding <- get_embedding text ;;
     let point := {| point_id := tool_id;
                     point_vector := embedding;
                     point_payload := {| p_name := Some name;
                                         p_description := Some description;
                                         p_tags := tags;
                                         p_tool_id := Some (Some tool_id) |} |} in
     client_upsert point ;;;
     logger INFO ("Upserted tool " ++ str_Z tool_id ++ " to vector database") ;;;
     ret true)
    (fun e =>
       logger ERROR ("Error upserting tool to vector database: " ++ str_exn e) ;;;
       ret false).

(** The dictionary [search_tools] builds from one scored point;
    [payload["key"]] on a missing key is a [KeyError], [payload.get("tags", [])]
    is not. *)
Definition hit_of_point (result : ScoredPoint) : option SearchHit :=
  match p_tool_id (sp_payload result), p_name (sp_payload result),
        p_description (sp_payload result) with
  | Some i, Some n, Some d =>
      Some {| hit_id := i; hit_name := n; hit_description := d;
              hit_tags := default [] (p_tags (sp_payload result));
              hit_score := sp_score result |}
  | _, _, _ => None
  end.

Fixpoint hits_of_points (search_result : list ScoredPoint) : M (list SearchHit) :=
  match search_result with
  | [] => ret []
  | result :: rest =>
      match hit_of_point result with
      | Some h => results <- hits_of_points rest ;; ret (h :: results)
      | None => raise KeyError
      end
  end.

Definition search_tools (query : string) (limit : Z) : M (list SearchHit) :=
  try_except
    (query_embedding <- get_embedding query ;;
     search_result <- client_search query_embedding limit score_threshold ;;
     results <- hits_of_points search_result ;;
     logger INFO ("Semantic search for '" ++ query ++ "' returned "
                  ++ str_Z (Z.of_nat (length results)) ++ " results") ;;;
     ret results)
    (fun e =>
       logger ERROR ("Error searching tools: " ++ str_exn e) ;;;
       ret []).

Definition delete_tool (tool_id : Z) : M bool :=
  try_except
    (client_delete tool_id ;;;
     logger INFO ("Deleted tool " ++ str_Z tool_id ++ " from vector database") ;;;
     ret true)
    (fun e =>
       logger ERROR ("Error deleting tool from vector database: " ++ str_exn e) ;;;
       ret false).

(** ** [app/crud.py] *)

Definition get_tool (tool_id : Z) : M (option Tool) :=
  try_except
    (query_tool_first tool_id)
    (fun e =>
       logger ERROR ("Error getting tool " ++ str_Z tool_id ++ ": " ++ str_exn e) ;;;
       ret None).

Definition create_tool (tool : ToolBase) : M (option Tool) :=
  try_except
    (db_register (PAddTool tool) ;;;
     ids <- db_commit ;;
     i <- inserted ids ;;
     db_tool <- db_refresh_tool i ;;
     ok <- upsert_tool (t_id db_tool) (t_name db_tool) (t_description db_tool)
                       (t_tags db_tool) ;;
     (if negb ok
      then logger WARNING ("Failed to upsert tool " ++ str_Z (t_id db_tool)
                           ++ " to vector database")
      else ret tt) ;;;
     logger INFO ("Created tool " ++ str_Z (t_id db_tool) ++ ": " ++ t_name db_tool) ;;;
     ret (Some db_tool))
    (fun e =>
       match e with
       | IntegrityError =>
           db_rollback ;;;
           logger ERROR ("Tool with name " ++ tb_name tool ++ " already exists") ;;;
           ret None
       | _ =>
           db_rollback ;;;
           logger ERROR ("Error creating tool: " ++ str_exn e) ;;;
           ret None
       end).

Definition update_tool (tool_id : Z) (tool : ToolBase) : M (option Tool) :=
  try_except
    (found <- query_tool_first tool_id ;;
     match found with
     | None =>
         logger ERROR ("Tool " ++ str_Z tool_id ++ " not found for update") ;;;
         ret None
     | Some loaded =>
         db_register (PSetTool (t_id loaded) tool) ;;;
         db_commit ;;;
         db_tool <- db_refresh_tool (t_id loaded) ;;
         ok <- upsert_tool (t_id db_tool) (t_name db_tool) (t_description db_tool)
                           (t_tags db_tool) ;;
         (if negb ok
          then logger WARNING ("Failed to upsert tool " ++ str_Z (t_id db_tool)
                               ++ " to vector database during update")
          else ret tt) ;;;
         logger INFO ("Updated tool " ++ str_Z (t_id db_tool) ++ ": " ++ t_name db_tool) ;;;
         ret (Some db_tool)
     end)
    (fun e =>
       match e with
       | IntegrityError =>
           db_rollback ;;;
           logger ERROR ("Tool with name " ++ tb_name tool ++ " already exists") ;;;
           ret None
       | _ =>
           db_rollback ;;;
           logger ERROR ("Error updating tool " ++ str_Z tool_id ++ ": " ++ str_exn e) ;;;
           ret None
       end).

Definition delete_tool_db (tool_id : Z) : M bool :=
  try_except
    (found <- query_tool_first tool_id ;;
     match found with
     | None =>
         logger ERROR ("Tool " ++ str_Z tool_id ++ " not found for deletion") ;;;
         ret false
     | Some db_tool =>
         db_register (PDeleteTool (t_id db_tool)) ;;;
         db_commit ;;;
         ok <- delete_tool tool_id ;;
         (if negb ok
          then logger WARNING ("Failed to delete tool " ++ str_Z tool_id
                               ++ " from vector database")
          else ret tt) ;;;
         logger INFO ("Deleted tool " ++ str_Z tool_id ++ ": " ++ t_name db_tool) ;;;
         ret true
     end)
    (fun e =>
       db_rollback ;;;
       logger ERROR ("Error deleting tool " ++ str_Z tool_id ++ ": " ++ str_exn e) ;;;
       ret false).

(** Truthiness of [result.get('id')]: [None] and [0] are falsy. *)
Definition truthy (tool_id : option Z) : bool :=
  match tool_id with
  | None => false
  | Some z => negb (z =? 0)%Z
  end.

(** The loop that [create_search_history], [get_search_history] and
    [semantic_search] each spell out:
<<
    valid_results = []
    for result in results:
        tool_id = result.get('id')
        if tool_id and get_tool(db, tool_id):
            valid_results.append(result)
>>
    [and] short-circuits: the store is only asked for a truthy id. *)
Fixpoint valid_results_of (results : list SearchHit) : M (list SearchHit) :=
  match results with
  | [] => ret []
  | result :: rest =>
      let tool_id := hit_id result in
      keep <- match tool_id with
              | Some z => if truthy tool_id
                          then found <- get_tool z ;; ret (bool_decide (is_Some found))
                          else ret false
              | None => ret false
              end ;;
      valid_results <- valid_results_of rest ;;
      ret (if keep then result :: valid_results else valid_results)
  end.

Definition create_search_history (query : string) (results : list SearchHit)
  : M (option SearchHistory) :=
  try_except
    (valid_results <- valid_results_of results ;;
     db_register (PAddHistory query valid_results) ;;;
     ids <- db_commit ;;
     i <- inserted ids ;;
     db_history <- db_refresh_history i ;;
     logger INFO ("Created search history record " ++ str_Z (h_id db_history)
                  ++ " for query: " ++ query) ;;;
     ret (Some db_history))
    (fun e =>
       db_rollback ;;;
       logger ERROR ("Error creating search history: " ++ str_exn e) ;;;
       ret None).

(** The body of the loop over [history_items]: the assignment
    [history_item.results = valid_results] changes the loaded object and
    registers the change with the session. *)
Definition filter_history_item (history_item : SearchHistory) : M SearchHistory :=
  valid_results <- valid_results_of (h_results history_item) ;;
  db_register (PSetHistoryResults (h_id history_item) valid_results) ;;;
  ret {| h_id := h_id history_item; h_query := h_query history_item;
         h_results := valid_results; h_created_at := h_created_at history_item |}.

Fixpoint filter_history_items (history_items : list SearchHistory)
  : M (list SearchHistory) :=
  match history_items with
  | [] => ret []
  | history_item :: rest =>
      item <- filter_history_item history_item ;;
      items <- filter_history_items rest ;;
      ret (item :: items)
  end.

Definition get_search_history (skip limit : Z) : M (list SearchHistory) :=
  try_except
    (history_items <- query_history_all skip limit ;;
     filter_history_items history_items)
    (fun e =>
       logger ERROR ("Error getting search history: " ++ str_exn e) ;;;
       ret []).

(** ** [app/main.py] *)

(** [try: m  finally: f] *)
Definition try_finally {A} (m : M A) (f : M unit) : M A :=
  fun w => match m w with
           | (r, w') => (r, snd (f w'))
           end.

(** The dependency [get_db] around an endpoint: a fresh session, rolled back
    on a [SQLAlchemyError] (of which [IntegrityError] is a subclass) and
    closed in every case. *)
Definition get_db {A} (endpoint : M A) : M A :=
  set_session [] ;;;
  try_finally
    (try_except endpoint
       (fun e =>
          match e with
          | IntegrityError | SQLAlchemyError =>
              logger ERROR ("Database error: " ++ str_exn e) ;;;
              db_rollback ;;;
              raise e
          | _ => raise e
          end))
    db_close.

(** The application around an endpoint: [http_exception_handler] and
    [general_exception_handler]. *)
Definition serve {A} (endpoint : M A) (w : World) : http_result A * World :=
  match get_db endpoint w with
  | (Return body, w') => (HTTP_OK body, w')
  | (Raise (HTTPException status_code detail), w') =>
      (HTTP_Error status_code detail, snd (logger ERROR ("HTTP error: " ++ detail) w'))
  | (Raise e, w') =>
      (HTTP_Error 500 "Internal server error",
       snd (logger ERROR ("Unexpected error: " ++ str_exn e) w'))
  end.

Definition main_create_tool (tool : ToolBase) : M Tool :=
  db_tool <- create_tool tool ;;
  match db_tool with
  | None => raise (HTTPException 400 "Tool with this name already exists")
  | Some t => ret t
  end.

Definition read_tool (tool_id : Z) : M Tool :=
  db_tool <- get_tool tool_id ;;
  match db_tool with
  | None => raise (HTTPException 404 "Tool not found")
  | Some t => ret t
  end.

Definition main_update_tool (tool_id : Z) (tool : ToolBase) : M Tool :=
  db_tool <- update_tool tool_id tool ;;
  match db_tool with
  | None => raise (HTTPException 404 "Tool not found or name already exists")
  | Some t => ret t
  end.

Definition delete_tool_endpoint (tool_id : Z) : M string :=
  ok <- delete_tool_db tool_id ;;
  if negb ok
  then raise (HTTPException 404 "Tool not found")
  else ret "Tool deleted successfully".

Definition semantic_search (query : SearchQuery) : M SearchResponse :=
  search_results <- search_tools (sq_query query) (sq_limit query) ;;
  valid_results <- valid_results_of search_results ;;
  create_search_history (sq_query query) valid_results ;;;
  ret {| sr_query := sq_query query; sr_results := valid_results |}.

Definition main_get_search_history (skip limit : Z) : M (list SearchHistory) :=
  history <- get_search_history skip limit ;;
  ret history.

(** ** The rest of [app/crud.py], [app/main.py] and [app/database.py] *)

(** The rows of [tools] as objects, in the order of the map. *)
Definition tool_objects (m : gmap Z ToolRow) : list Tool :=
  uncurry Tool_of <$> map_to_list m.

Definition named (name : string) (t : Tool) : Prop := t_name t = name.

#[global] Instance named_dec name t : Decision (named name t).
Proof. unfold named. apply _. Defined.

(** [db.query(models.Tool).filter(models.Tool.name == name).first()]; the
    query has no [ORDER BY], and a store with unique names has at most one
    such row. *)
Definition query_tool_by_name_first (name : string) : M (option Tool) :=
  external SQLAlchemyError ;;;
  w <- get_world ;;
  ret (head (filter (named name) (tool_objects (tools (db w))))).

Definition get_tool_by_name (name : string) : M (option Tool) :=
  try_except
    (query_tool_by_name_first name)
    (fun e =>
       logger ERROR ("Error getting tool by name " ++ name ++ ": " ++ str_exn e) ;;;
       ret None).

(** [order_by(models.Tool.id)] *)
Definition by_id (a b : Tool) : Prop := t_id a <= t_id b.

#[global] Instance by_id_dec a b : Decision (by_id a b).
Proof. unfold by_id. apply _. Defined.

Definition tools_by_id (m : gmap Z ToolRow) : list Tool :=
  merge_sort by_id (tool_objects m).

(** [db.query(models.Tool).order_by(models.Tool.id).offset(skip).limit(limit).all()],
    for the [skip >= 0] and [limit >= 1] the endpoint lets through. *)
Definition query_tools_all (skip limit : Z) : M (list Tool) :=
  external SQLAlchemyError ;;;
  w <- get_world ;;
  ret (page skip limit (tools_by_id (tools (db w)))).

Definition get_tools (skip limit : Z) : M (list Tool) :=
  try_except
    (query_tools_all skip limit)
    (fun e =>
       logger ERROR ("Error getting tools: " ++ str_exn e) ;;;
       ret []).


(** [ALTER SEQUENCE ... RESTART WITH 1] on both sequences. *)
Definition restart_sequences (s : Store) : Store :=
  {| tools := tools s; tools_id_seq := 1;
     search_history := search_history s; search_history_id_seq := 1;
     clock := clock s |}.

(** [database.reset_sequences]: connect, two statements and a commit, any of
    which may raise; the statements take effect with the commit. *)
Definition reset_sequences : M unit :=
  try_except
    (external SQLAlchemyError ;;;
     external SQLAlchemyError ;;;
     external SQLAlchemyError ;;;
     external SQLAlchemyError ;;;
     w <- get_world ;;
     set_db (restart_sequences (db w)) ;;;
     logger INFO "Database sequences reset successfully!")
    (fun e =>
       logger ERROR ("Error resetting sequences: " ++ str_exn e)).

(** [Base.metadata.drop_all] and then [Base.metadata.create_all]: both tables
    empty, their sequences new.  Between the two the tables do not exist; the
    store then shows them empty. *)
Definition recreated (s : Store) : Store :=
  {| tools := ∅; tools_id_seq := 1;
     search_history := ∅; search_history_id_seq := 1; clock := clock s |}.

(** [database.init_db] *)
Definition init_db : M unit :=
  try_except
    (external SQLAlchemyError ;;;
     w <- get_world ;;
     set_db (recreated (db w)) ;;;
     external SQLAlchemyError ;;;
     logger INFO "Database tables created successfully!" ;;;
     reset_sequences)
    (fun e =>
       logger ERROR ("Error creating database tables: " ++ str_exn e) ;;;
       raise e).

(** The startup half of [main.lifespan]. *)
Definition lifespan_startup : M unit :=
  logger INFO "Initializing database..." ;;;
  init_db ;;;
  logger INFO "Database initialized successfully!".

(** ** The requests of the API *)




(** What the program relies on from Qdrant's [search]: no point under
    [score_threshold], at most [limit] points. *)
Definition honours_threshold : Prop :=
  forall pts v limit thr p,
    In p (qdrant_search pts v limit thr) -> (thr <= sp_score p)%Q.

Definition honours_limit : Prop :=
  forall pts v limit thr,
    0 <= limit -> Z.of_nat (length (qdrant_search pts v limit thr)) <= limit.

(** A result whose tool the record store holds: what the filter loop keeps
    when no query fails. *)
Definition live_hit (s : Store) (r : SearchHit) : bool :=
  match hit_id r with
  | Some z => truthy (Some z) && bool_decide (is_Some (tools s !! z))
  | None => false
  end.

(** The view [get_search_history] returns of a stored history object. *)
Definition live_view (s : Store) (h : SearchHistory) : SearchHistory :=
  {| h_id := h_id h; h_query := h_query h;
     h_results := List.filter (live_hit s) (h_results h);
     h_created_at := h_created_at h |}.

(** ** Vocabulary of the properties *)

(** The data of a world: everything but the fault script and the log. *)
Definition same_data (w w' : World) : Prop :=
  db w' = db w /\ session w' = session w /\ points w' = points w.

(** The candidates one call of [search_tools] can return: nothing, when
    anything raised, or the dictionaries of the points Qdrant returned for
    this query, this limit and the floor [score_threshold]. *)
Definition candidates (w : World) (query : string) (limit : Z) (hits : list SearchHit)
  : Prop :=
  hits = [] \/
  Forall2 (fun p h => hit_of_point p = Some h)
          (qdrant_search (points w) (encode query) limit score_threshold) hits.

(** What a returned history object [it] is to the stored object [h] it was
    loaded from: the same record, its results thinned to live tools. *)
Definition view_of (s : Store) (h it : SearchHistory) : Prop :=
  h_id it = h_id h /\ h_query it = h_query h /\ h_created_at it = h_created_at h /\
  sublist (h_results it) (h_results h) /\
  Forall (fun r => live_hit s r = true) (h_results it).

Definition history_page (w : World) (skip limit : Z) : list SearchHistory :=
  page skip limit (newest_first (search_history (db w))).

(** The point [upsert_tool] stores for a tool with the tag list [tags]. *)
Definition indexed (i : Z) (name description : string) (tags : list string)
  : PointStruct :=
  {| point_id := i;
     point_vector := encode (embedding_text name description tags);
     point_payload := {| p_name := Some name; p_description := Some description;
                         p_tags := Some tags; p_tool_id := Some (Some i) |} |}.

(** The record-store half of [create_tool]: [db.add], [db.commit] and
    [db.refresh]. *)
Definition create_tool_insert (tool : ToolBase) : M Tool :=
  db_register (PAddTool tool) ;;;
  ids <- db_commit ;;
  i <- inserted ids ;;
  db_refresh_tool i.

(** A tool object that is the row of its id in the store. *)
Definition persisted (s : Store) (t : Tool) : Prop :=
  Tool_of (t_id t) <$> tools s !! t_id t = Some t.

(** What a write leaves in the index for the tool [t] it returns: nothing
    new, when the upsert failed, or the point derived from the fields of [t]. *)
Definition index_follows (w w' : World) (t : Tool) : Prop :=
  points w' = points w \/
  exists tags, t_tags t = Some tags /\
               points w' = <[t_id t := indexed (t_id t) (t_name t) (t_description t) tags]>
                             (points w).

Definition missing (s : Store) (i : Z) : Prop := tools s !! i = None.

(** The new name is the name of a tool other than [i], which exists. *)
Definition name_collides (s : Store) (i : Z) (tool : ToolBase) : Prop :=
  is_Some (tools s !! i) /\
  map_Exists (name_conflict (tb_name tool) (Some i)) (tools s).

(** The constraint [unique=True] on [tools.name], as an invariant of the
    store. *)
Definition names_unique (s : Store) : Prop :=
  forall i j ri rj,
    tools s !! i = Some ri -> tools s !! j = Some rj ->
    tb_name (c_fields ri) = tb_name (c_fields rj) -> i = j.

(** The one error the update endpoint raises. *)
Definition update_refused : exn :=
  HTTPException 404 "Tool not found or name already exists".

(** ** Vocabulary of the further properties *)

(** Some row already has the name. *)
Definition name_taken (s : Store) (name : string) : Prop :=
  map_Exists (name_conflict name None) (tools s).

(** Every id in use was drawn from the sequence. *)
Definition keys_below_seq (s : Store) : Prop :=
  forall i, is_Some (tools s !! i) -> i < tools_id_seq s.


(** The errors of the create endpoint and of the read and delete endpoints. *)
Definition create_refused : exn :=
  HTTPException 400 "Tool with this name already exists".

Definition not_found : exn := HTTPException 404 "Tool not found".

(** The row an [INSERT] of [tool] writes into the store [s]. *)
Definition inserted_row (s : Store) (tool : ToolBase) : ToolRow :=
  {| c_fields := tool; c_created_at := clock s; c_updated_at := clock s |}.

(** The row an [UPDATE] of [old] with the fields [tool] writes. *)
Definition updated_row (s : Store) (old : ToolRow) (tool : ToolBase) : ToolRow :=
  {| c_fields := tool; c_created_at := c_created_at old; c_updated_at := clock s |}.

(** The rows an update of tool [i] can leave: the old ones, when the fields
    are the stored ones, or the old ones with the row of [i] rewritten. *)
Definition updated_tools (s : Store) (i : Z) (row : ToolRow) (tool : ToolBase)
    (m : gmap Z ToolRow) : Prop :=
  (c_fields row = tool /\ m = tools s) \/
  (c_fields row <> tool /\
   ~ map_Exists (name_conflict (tb_name tool) (Some i)) (tools s) /\
   m = <[i := updated_row s row tool]> (tools s)).

(** The history a write of [results] for [query] can leave behind [s]. *)
Definition history_written (s : Store) (query : string) (results : list SearchHit)
    (m : gmap Z HistoryRow) : Prop :=
  m = search_history s \/
  (search_history s !! search_history_id_seq s = None /\
   exists stored,
     sublist stored results /\
     Forall (fun r => live_hit s r = true) stored /\
     m = <[search_history_id_seq s :=
             {| c_query := query; c_results := stored; c_recorded_at := clock s |}]>
           (search_history s)).

(** [wp m w Q]: running [m] in the world [w] ends in an outcome and a world
    that satisfy [Q].  Runs are total, so this is total correctness. *)
Definition wp {A} (m : M A) (w : World) (Q : outcome A -> World -> Prop) : Prop :=
  Q (fst (m w)) (snd (m w)).

(** ** A weakest-precondition calculus for the monad *)

Lemma wp_run {A} (m : M A) w Q o w' :
  m w = (o, w') -> wp m w Q -> Q o w'.
Proof. unfold wp. intros ->. auto. Qed.

Lemma wp_mono {A} (m : M A) w (P Q : outcome A -> World -> Prop) :
  wp m w P -> (forall o w', P o w' -> Q o w') -> wp m w Q.
Proof. unfold wp. auto. Qed.

Lemma wp_ret {A} (a : A) w Q : Q (Return a) w -> wp (ret a) w Q.
Proof. auto. Qed.

Lemma wp_raise {A} e w (Q : outcome A -> World -> Prop) :
  Q (Raise e) w -> wp (raise e) w Q.
Proof. auto. Qed.

Lemma wp_bind {A B} (m : M A) (k : A -> M B) w Q :
  wp m w (fun o w' => match o with
                      | Return a => wp (k a) w' Q
                      | Raise e => Q (Raise e) w'
                      end) ->
  wp (bind m k) w Q.
Proof.
  unfold wp, bind. destruct (m w) as [[a | e] w']; auto.
Qed.

Lemma wp_try_except {A} (m : M A) h w Q :
  wp m w (fun o w' => match o with
                      | Return a => Q (Return a) w'
                      | Raise e => wp (h e) w' Q
                      end) ->
  wp (try_except m h) w Q.
Proof.
  unfold wp, try_except. destruct (m w) as [[a | e] w']; auto.
Qed.

Lemma wp_try_finally {A} (m : M A) f w Q :
  wp m w (fun o w' => Q o (snd (f w'))) ->
  wp (try_finally m f) w Q.
Proof.
  unfold wp, try_finally. destruct (m w) as [o w']; auto.
Qed.

Lemma wp_get_world w Q : Q (Return w) w -> wp get_world w Q.
Proof. auto. Qed.

Lemma wp_set_db s w Q : Q (Return tt) (put_db s w) -> wp (set_db s) w Q.
Proof. auto. Qed.

Lemma wp_set_session p w Q : Q (Return tt) (put_session p w) -> wp (set_session p) w Q.
Proof. auto. Qed.

Lemma wp_set_points p w Q : Q (Return tt) (put_points p w) -> wp (set_points p) w Q.
Proof. auto. Qed.

Lemma wp_logger l msg w Q :
  (forall r, Q (Return tt) (put_log r w)) -> wp (logger l msg) w Q.
Proof. intros H. apply H. Qed.

Lemma put_faults_id w : put_faults (faults w) w = w.
Proof. destruct w; reflexivity. Qed.

(** A call to a collaborator either goes through or raises; in both cases
    only the fault script has moved. *)
Lemma wp_external e w Q :
  (forall fs, Q (Return tt) (put_faults fs w)) ->
  (forall fs, Q (Raise e) (put_faults fs w)) ->
  wp (external e) w Q.
Proof.
  intros Hok Hfail. unfold wp, external, bind, next_fault.
  destruct (faults w) as [| [] fs] eqn:Hf; cbn [fst snd raise ret].
  - rewrite <- (put_faults_id w), Hf. apply Hok.
  - apply Hfail.
  - apply Hok.
Qed.

Lemma external_ok e w :
  faults w = [] -> external e w = (Return tt, w).
Proof.
  intros H. unfold external, bind, next_fault. rewrite H. reflexivity.
Qed.

Lemma wp_external_ok e w Q :
  faults w = [] -> Q (Return tt) w -> wp (external e) w Q.
Proof.
  intros Hf HQ. unfold wp. rewrite (external_ok _ _ Hf). exact HQ.
Qed.

Ltac wsimpl :=
  cbn [db session points faults log put_db put_session put_points put_faults put_log
       fst snd] in *.

Ltac wp_step_local :=
  lazymatch goal with
  | |- wp (bind _ _) _ _ => apply wp_bind
  | |- wp (ret _) _ _ => apply wp_ret
  | |- wp (raise _) _ _ => apply wp_raise
  | |- wp (try_except _ _) _ _ => apply wp_try_except
  | |- wp (try_finally _ _) _ _ => apply wp_try_finally
  | |- wp get_world _ _ => apply wp_get_world
  | |- wp (set_db _) _ _ => apply wp_set_db
  | |- wp (set_session _) _ _ => apply wp_set_session
  | |- wp (set_points _) _ _ => apply wp_set_points
  | |- wp db_rollback _ _ => apply wp_set_session
  | |- wp db_close _ _ => apply wp_set_session
  | |- wp (db_register _) _ _ => unfold db_register
  | |- wp (logger _ _) _ _ => apply wp_logger; intros ?
  end.

(** A step under every behaviour of the collaborators. *)
Ltac wp_step :=
  lazymatch goal with
  | |- wp (external _) _ _ => apply wp_external; intros ?
  | |- _ => wp_step_local
  end.

Ltac wp_steps := repeat (wp_step; wsimpl).

(** A step when the fault script is known to be empty. *)
Ltac wp_step_ok Hf :=
  lazymatch goal with
  | |- wp (external _) _ _ => apply wp_external_ok; [wsimpl; exact Hf |]
  | |- _ => wp_step_local
  end.

Ltac wp_steps_ok Hf := repeat (wp_step_ok Hf; wsimpl).

Lemma same_data_refl w : same_data w w.
Proof. repeat split. Qed.

Lemma same_data_trans w1 w2 w3 : same_data w1 w2 -> same_data w2 w3 -> same_data w1 w3.
Proof. unfold same_data. intros (-> & -> & ->) (-> & -> & ->). auto. Qed.

(** ** [get_tool] and the filter loop *)

Lemma get_tool_ok i w :
  faults w = [] ->
  get_tool i w = (Return (Tool_of i <$> tools (db w) !! i), w).
Proof.
  intros H. unfold get_tool, query_tool_first, try_except, bind.
  rewrite (external_ok _ _ H). reflexivity.
Qed.

Lemma get_tool_spec i w :
  wp (get_tool i) w (fun o w' =>
    same_data w w' /\
    (o = Return None \/ o = Return (Tool_of i <$> tools (db w) !! i))).
Proof.
  unfold get_tool, query_tool_first. wp_steps; unfold same_data; wsimpl; auto.
Qed.

Lemma live_hit_inv s r :
  live_hit s r = true ->
  exists z, hit_id r = Some z /\ z <> 0 /\ is_Some (tools s !! z).
Proof.
  unfold live_hit, truthy. destruct (hit_id r) as [z |]; [| discriminate].
  intros H. apply andb_true_iff in H as [Hz Hs].
  exists z. split; [reflexivity |]. split.
  - intros ->. discriminate.
  - apply bool_decide_eq_true in Hs. exact Hs.
Qed.

Lemma valid_results_of_ok results w :
  faults w = [] ->
  valid_results_of results w = (Return (List.filter (live_hit (db w)) results), w).
Proof.
  intros Hf. induction results as [| r rest IH]; [reflexivity |].
  cbn [valid_results_of List.filter]. unfold bind at 1. unfold live_hit at 1.
  destruct (hit_id r) as [z |]; cbn [truthy].
  - destruct (negb (z =? 0)); cbn [andb].
    + unfold bind at 1. rewrite (get_tool_ok _ _ Hf). cbn [ret].
      unfold bind. rewrite IH.
      destruct (tools (db w) !! z) as [row |]; reflexivity.
    + cbn [ret]. unfold bind. rewrite IH. reflexivity.
  - cbn [ret]. unfold bind. rewrite IH. reflexivity.
Qed.

Lemma valid_results_of_spec results w :
  wp (valid_results_of results) w (fun o w' =>
    exists valid, o = Return valid /\ same_data w w' /\
                  sublist valid results /\
                  Forall (fun r => live_hit (db w) r = true) valid).
Proof.
  revert w. induction results as [| r rest IH]; intros w; cbn [valid_results_of].
  - wp_steps. exists []. repeat split; constructor.
  - wp_step.
    assert (Hkeep : wp
      match hit_id r with
      | Some z => if truthy (hit_id r)
                  then found <- get_tool z ;; ret (bool_decide (is_Some found))
                  else ret false
      | None => ret false
      end w (fun o w1 => exists keep, o = Return keep /\ same_data w w1 /\
                                      (keep = true -> live_hit (db w) r = true))).
    { unfold live_hit. destruct (hit_id r) as [z |].
      - destruct (truthy (Some z)) eqn:Ht.
        + wp_step. eapply wp_mono; [apply get_tool_spec |].
          intros o w1 [Hsame Ho]. cbn beta.
          destruct Ho as [-> | ->]; wp_steps.
          * exists false. repeat split; try apply Hsame. discriminate.
          * eexists. split; [reflexivity |]. split; [exact Hsame |].
            intros Hk. cbn [andb]. apply bool_decide_eq_true in Hk.
            apply bool_decide_eq_true. destruct Hk as [t Hk].
            destruct (tools (db w) !! z); [eauto | discriminate].
        + wp_steps. exists false. split; [reflexivity |].
          split; [apply same_data_refl | discriminate].
      - wp_steps. exists false. split; [reflexivity |].
        split; [apply same_data_refl | discriminate]. }
    eapply wp_mono; [exact Hkeep |]. cbn beta.
    intros o w1 (keep & -> & Hsame & Hk).
    wp_step. eapply wp_mono; [apply IH |]. cbn beta.
    intros o w2 (valid & -> & Hsame2 & Hsub & Hall).
    wp_steps. eexists. split; [reflexivity |].
    split; [exact (same_data_trans _ _ _ Hsame Hsame2) |].
    destruct Hsame as (Hd & _). rewrite Hd in Hall.
    destruct keep; split; try (constructor; auto); auto.
Qed.

(** ** The search pipeline *)

Lemma wp_any {A} (m : M A) w (Q : outcome A -> World -> Prop) :
  (forall o w', Q o w') -> wp m w Q.
Proof. intros H. apply H. Qed.

Lemma hits_of_points_spec l w :
  wp (hits_of_points l) w (fun o w' =>
    w' = w /\
    (o = Raise KeyError \/
     exists hits, o = Return hits /\
                  Forall2 (fun p h => hit_of_point p = Some h) l hits)).
Proof.
  induction l as [| p l IH]; cbn [hits_of_points].
  - wp_steps. split; [reflexivity |]. right. exists []. split; [reflexivity | constructor].
  - destruct (hit_of_point p) as [h |] eqn:Hp.
    + wp_step. eapply wp_mono; [exact IH |]. cbn beta.
      intros o w' [-> [-> | (hits & -> & Hall)]].
      * split; [reflexivity |]. left. reflexivity.
      * wp_steps. split; [reflexivity |]. right. exists (h :: hits).
        split; [reflexivity |]. constructor; assumption.
    + wp_steps. split; [reflexivity |]. left. reflexivity.
Qed.

Lemma search_tools_spec query limit w :
  wp (search_tools query limit) w (fun o w' =>
    same_data w w' /\ exists hits, o = Return hits /\ candidates w query limit hits).
Proof.
  unfold search_tools, get_embedding, client_search, candidates.
  wp_steps.
  - eapply wp_mono; [apply hits_of_points_spec |]. cbn beta.
    intros o w' [-> [-> | (hits & -> & Hall)]]; wp_steps.
    + split; [repeat split |]. exists []. auto.
    + split; [repeat split |]. exists hits. auto.
  - split; [repeat split |]. exists []. auto.
  - split; [repeat split |]. exists []. auto.
Qed.

Lemma create_search_history_total query results w :
  wp (create_search_history query results) w (fun o _ => exists r, o = Return r).
Proof.
  unfold create_search_history. wp_step. apply wp_any.
  intros [a | e] w'; [eauto |]. wp_steps. eauto.
Qed.

Lemma semantic_search_spec query w :
  wp (semantic_search query) w (fun o _ =>
    exists hits valid,
      o = Return {| sr_query := sq_query query; sr_results := valid |} /\
      candidates w (sq_query query) (sq_limit query) hits /\
      sublist valid hits /\
      Forall (fun r => live_hit (db w) r = true) valid).
Proof.
  unfold semantic_search. wp_step.
  eapply wp_mono; [apply search_tools_spec |]. cbn beta.
  intros o w1 (Hsame & hits & -> & Hc).
  wp_step. eapply wp_mono; [apply valid_results_of_spec |]. cbn beta.
  intros o w2 (valid & -> & Hsame2 & Hsub & Hall).
  wp_step. eapply wp_mono; [apply create_search_history_total |]. cbn beta.
  intros o w3 (r & ->). wp_steps.
  exists hits, valid. destruct Hsame as (Hd & _). rewrite Hd in Hall. auto.
Qed.

Lemma wp_returns {A} (m : M A) w (P : A -> Prop) :
  wp m w (fun o _ => exists a, o = Return a /\ P a) ->
  exists a w', m w = (Return a, w') /\ P a.
Proof.
  unfold wp. destruct (m w) as [o w']. cbn [fst snd].
  intros (a & -> & HP). eauto.
Qed.

Lemma hit_of_point_score p h : hit_of_point p = Some h -> hit_score h = sp_score p.
Proof.
  unfold hit_of_point.
  destruct (p_tool_id (sp_payload p)), (p_name (sp_payload p)),
           (p_description (sp_payload p)); try discriminate.
  intros [= <-]. reflexivity.
Qed.

Lemma candidates_floor w query limit hits :
  honours_threshold ->
  candidates w query limit hits ->
  Forall (fun r => (score_threshold <= hit_score r)%Q) hits.
Proof.
  intros Hthr [-> | Hall]; [constructor |].
  assert (Hpts : Forall (fun p => (score_threshold <= sp_score p)%Q)
            (qdrant_search (points w) (encode query) limit score_threshold)).
  { apply Forall_forall. intros p Hp. eapply Hthr. apply list_elem_of_In. exact Hp. }
  induction Hall as [| p h ps hs Hph _ IH]; [constructor |].
  inversion Hpts; subst. constructor; [| auto].
  rewrite (hit_of_point_score _ _ Hph). assumption.
Qed.

Lemma candidates_length w query limit hits :
  honours_limit -> 0 <= limit ->
  candidates w query limit hits ->
  Z.of_nat (length hits) <= limit.
Proof.
  intros Hlim Hpos [-> | Hall]; [simpl; lia |].
  rewrite <- (Forall2_length _ _ _ Hall). apply Hlim. exact Hpos.
Qed.

Lemma Forall_sublist {A} (P : A -> Prop) (l1 l2 : list A) :
  sublist l1 l2 -> Forall P l2 -> Forall P l1.
Proof.
  intros Hsub Hall. apply Forall_forall. intros x Hx.
  rewrite Forall_forall in Hall. apply Hall. eapply elem_of_sublist; eassumption.
Qed.

(** ** Properties of the search pipeline *)

(** C5 (score floor).  Given that Qdrant honours the [score_threshold] it is
    passed, every Search returns a response, and no element of its results
    has a similarity score below the floor 0.3. *)
Theorem search_results_above_floor query w :
  honours_threshold ->
  exists resp w',
    semantic_search query w = (Return resp, w') /\
    Forall (fun r => (3 # 10 <= hit_score r)%Q) (sr_results resp).
Proof.
  intros Hthr. apply wp_returns.
  eapply wp_mono; [apply semantic_search_spec |]. cbn beta.
  intros o _ (hits & valid & -> & Hc & Hsub & _).
  eexists. split; [reflexivity |]. cbn [sr_results].
  eapply Forall_sublist; [exact Hsub |].
  exact (candidates_floor _ _ _ _ Hthr Hc).
Qed.

(** C6 (limit is an upper bound).  Given that Qdrant returns at most [limit]
    points, a Search with a valid query returns at most [limit] results: they
    are a sub-list of the candidates of the one Qdrant call, which the score
    floor and the existence filter only shrink. *)
Theorem search_results_at_most_limit query w :
  honours_limit ->
  SearchQuery_valid query ->
  exists resp w' hits,
    semantic_search query w = (Return resp, w') /\
    candidates w (sq_query query) (sq_limit query) hits /\
    sublist (sr_results resp) hits /\
    Z.of_nat (length (sr_results resp)) <= sq_limit query.
Proof.
  intros Hlim [_ [Hlo _]].
  assert (H : wp (semantic_search query) w (fun o _ =>
            exists resp, o = Return resp /\
              exists hits, candidates w (sq_query query) (sq_limit query) hits /\
                sublist (sr_results resp) hits /\
                Z.of_nat (length (sr_results resp)) <= sq_limit query)).
  { eapply wp_mono; [apply semantic_search_spec |]. cbn beta.
    intros o _ (hits & valid & -> & Hc & Hsub & _).
    eexists. split; [reflexivity |]. exists hits. cbn [sr_results].
    split; [exact Hc |]. split; [exact Hsub |].
    assert (Hpos : 0 <= sq_limit query) by lia.
    pose proof (candidates_length _ _ _ _ Hlim Hpos Hc) as Hlen.
    pose proof (sublist_length _ _ Hsub) as Hle. lia. }
  apply wp_returns in H. destruct H as (resp & w' & Hrun & hits & H).
  exists resp, w', hits. tauto.
Qed.


(** C8 (history is best effort).  When writing the history record fails,
    [create_search_history] returns [None] and Search still returns the
    response with the filtered results, unchanged; and the history writer
    never raises, so no failure of it can become a failure of Search. *)
Theorem search_survives_history_failure query w hits w1 valid w2 w3 :
  search_tools (sq_query query) (sq_limit query) w = (Return hits, w1) ->
  valid_results_of hits w1 = (Return valid, w2) ->
  create_search_history (sq_query query) valid w2 = (Return None, w3) ->
  semantic_search query w =
  (Return {| sr_query := sq_query query; sr_results := valid |}, w3) /\
  (forall q results w0, exists r w0',
      create_search_history q results w0 = (Return r, w0')).
Proof.
  intros H1 H2 H3. split.
  - unfold semantic_search, bind. rewrite H1, H2, H3. reflexivity.
  - intros q results w0.
    pose proof (create_search_history_total q results w0) as Ht. unfold wp in Ht.
    destruct (create_search_history q results w0) as [o w0'].
    cbn [fst] in Ht. destruct Ht as [r ->]. eauto.
Qed.

(** ** The history reader *)

Lemma filter_history_item_spec h w :
  wp (filter_history_item h) w (fun o w' =>
    db w' = db w /\ points w' = points w /\
    exists it, o = Return it /\ view_of (db w) h it).
Proof.
  unfold filter_history_item. wp_step.
  eapply wp_mono; [apply valid_results_of_spec |]. cbn beta.
  intros o w1 (valid & -> & (Hd & Hs & Hp) & Hsub & Hall).
  wp_steps. repeat split; auto. eexists. split; [reflexivity |].
  repeat split; auto.
Qed.

Lemma filter_history_items_spec hs w :
  wp (filter_history_items hs) w (fun o w' =>
    db w' = db w /\ points w' = points w /\
    exists items, o = Return items /\ Forall2 (view_of (db w)) hs items).
Proof.
  revert w. induction hs as [| h hs IH]; intros w; cbn [filter_history_items].
  - wp_steps. repeat split. exists []. split; [reflexivity | constructor].
  - wp_step. eapply wp_mono; [apply filter_history_item_spec |]. cbn beta.
    intros o w1 (Hd & Hp & it & -> & Hv).
    wp_step. eapply wp_mono; [apply IH |]. cbn beta.
    intros o w2 (Hd2 & Hp2 & items & -> & Hall).
    wp_steps. rewrite Hd2, Hp2. repeat split; auto.
    exists (it :: items). split; [reflexivity |].
    rewrite Hd in Hall. constructor; assumption.
Qed.

Lemma get_search_history_spec skip limit w :
  wp (get_search_history skip limit) w (fun o w' =>
    db w' = db w /\ points w' = points w /\
    exists items, o = Return items /\
      (items = [] \/ Forall2 (view_of (db w)) (history_page w skip limit) items)).
Proof.
  unfold get_search_history, query_history_all, history_page. wp_steps.
  - eapply wp_mono; [apply filter_history_items_spec |]. cbn beta. wsimpl.
    intros o w1 (Hd & Hp & items & -> & Hall). wsimpl.
    repeat split; auto. exists items. auto.
  - repeat split. exists []. auto.
Qed.

Lemma filter_history_item_ok h w :
  faults w = [] ->
  exists w', filter_history_item h w = (Return (live_view (db w) h), w') /\
             db w' = db w /\ faults w' = [].
Proof.
  intros Hf. unfold filter_history_item, bind.
  rewrite (valid_results_of_ok _ _ Hf). cbn. eauto.
Qed.

Lemma filter_history_items_ok hs w :
  faults w = [] ->
  exists w', filter_history_items hs w = (Return (live_view (db w) <$> hs), w') /\
             db w' = db w /\ faults w' = [].
Proof.
  revert w. induction hs as [| h hs IH]; intros w Hf; cbn [filter_history_items].
  - exists w. auto.
  - unfold bind.
    destruct (filter_history_item_ok h w Hf) as (w1 & -> & Hd1 & Hf1).
    destruct (IH w1 Hf1) as (w2 & -> & Hd2 & Hf2).
    exists w2. rewrite Hd1. cbn. rewrite Hd2. auto.
Qed.

Lemma get_search_history_ok skip limit w :
  faults w = [] ->
  exists w', get_search_history skip limit w =
             (Return (live_view (db w) <$> history_page w skip limit), w') /\
             db w' = db w.
Proof.
  intros Hf. unfold get_search_history, query_history_all, try_except, bind.
  rewrite (external_ok _ _ Hf). cbn [get_world ret].
  destruct (filter_history_items_ok (history_page w skip limit) w Hf)
    as (w' & Hrun & Hd & _).
  unfold history_page in Hrun. rewrite Hrun. eauto.
Qed.

Lemma newest_first_stored (m : gmap Z HistoryRow) h :
  h ∈ newest_first m ->
  exists row, m !! h_id h = Some row /\ h = SearchHistory_of (h_id h) row.
Proof.
  unfold newest_first. rewrite merge_sort_Permutation.
  intros Hin. apply list_elem_of_fmap in Hin as ([i row] & -> & Hin).
  apply elem_of_map_to_list in Hin. exists row. cbn. auto.
Qed.

Lemma history_page_stored w skip limit h :
  h ∈ history_page w skip limit ->
  exists row, search_history (db w) !! h_id h = Some row /\
              h = SearchHistory_of (h_id h) row.
Proof.
  unfold history_page, page. intros Hin. apply newest_first_stored.
  eapply elem_of_sublist; [exact Hin |].
  etransitivity; [apply sublist_take | apply sublist_drop].
Qed.

Lemma Forall2_elem_r {A B} (R : A -> B -> Prop) (l : list A) (k : list B) y :
  Forall2 R l k -> y ∈ k -> exists x, x ∈ l /\ R x y.
Proof.
  induction 1 as [| x0 y0 l k HR _ IH]; intros Hy.
  - inversion Hy.
  - apply elem_of_cons in Hy as [-> | Hy].
    + exists x0. split; [left | exact HR].
    + destruct (IH Hy) as (x & Hx & HRx). exists x. split; [right; exact Hx | exact HRx].
Qed.

(** ** Commits *)

Lemma flush_snoc pre op s :
  flush (pre ++ [op]) s =
  match flush pre s with
  | (Return ids, s1) =>
      match flush_op op s1 with
      | (Return ids', s2) => (Return (ids ++ ids')%list, s2)
      | (Raise e, s2) => (Raise e, s2)
      end
  | (Raise e, s1) => (Raise e, s1)
  end.
Proof.
  revert s. induction pre as [| op' pre IH]; intros s; cbn [app flush].
  - destruct (flush_op op s) as [[ids | e] s1]; [| reflexivity].
    rewrite app_nil_r. reflexivity.
  - destruct (flush_op op' s) as [[ids | e] s1]; [| reflexivity].
    rewrite IH. destruct (flush pre s1) as [[ids1 | e] s2]; [| reflexivity].
    destruct (flush_op op s2) as [[ids2 | e] s3]; [| reflexivity].
    rewrite app_assoc. reflexivity.
Qed.

Lemma wp_db_commit w Q :
  (forall fs, Q (Raise SQLAlchemyError) (put_faults fs w)) ->
  (forall fs ids s',
      flush (session w) (db w) = (Return ids, s') ->
      Q (Return ids) (put_session [] (put_db (tick s') (put_faults fs w)))) ->
  (forall fs e s',
      flush (session w) (db w) = (Raise e, s') ->
      Q (Raise e) (put_db (aborted (db w) s') (put_faults fs w))) ->
  wp db_commit w Q.
Proof.
  intros Hfault Hok Hfail. unfold db_commit. wp_steps; [| apply Hfault].
  destruct (flush (session w) (db w)) as [[ids | e] s'] eqn:Hflush; wp_steps.
  - apply Hok. reflexivity.
  - apply Hfail. reflexivity.
Qed.

Lemma delete_tool_spec i w :
  wp (delete_tool i) w (fun o w' =>
    db w' = db w /\ session w' = session w /\ exists ok, o = Return ok).
Proof.
  unfold delete_tool, client_delete. wp_steps; eauto.
Qed.

Lemma delete_tool_db_spec i w :
  wp (delete_tool_db i) w (fun o w' => o = Return true -> tools (db w') !! i = None).
Proof.
  unfold delete_tool_db, query_tool_first. wp_steps; try discriminate.
  destruct (tools (db w) !! i) as [row |]; cbn [fmap option_fmap option_map];
    wp_steps; try discriminate.
  cbn [Tool_of t_id]. apply wp_db_commit; wsimpl.
  - intros fs1. wp_steps. discriminate.
  - intros fs1 ids s' Hflush. wp_step.
    eapply wp_mono; [apply delete_tool_spec |]. cbn beta. wsimpl.
    intros o w1 (Hd & _ & ok & ->). wp_step.
    assert (Hgone : tools (db w1) !! i = None).
    { rewrite Hd. rewrite flush_snoc in Hflush.
      destruct (flush (session w) (db w)) as [[ids0 | e] s0]; [| discriminate].
      cbn in Hflush. injection Hflush as _ <-. cbn. apply lookup_delete_eq. }
    destruct ok; cbn [negb]; wp_steps; intros _; exact Hgone.
  - intros fs1 e s' _. wp_steps. discriminate.
Qed.

Lemma flush_add_history pre query results s i s' :
  flush (pre ++ [PAddHistory query results]) s = (Return [i], s') ->
  search_history s' !! i =
  Some {| c_query := query; c_results := results; c_recorded_at := clock s' |}.
Proof.
  rewrite flush_snoc.
  destruct (flush pre s) as [[ids0 | e] s0]; [| discriminate].
  cbn [flush_op].
  destruct (decide (is_Some (search_history s0 !! search_history_id_seq s0)));
    [discriminate |].
  intros H. injection H as Hids <-.
  destruct ids0 as [| j ids0]; cbn in Hids.
  - injection Hids as <-. cbn. apply lookup_insert_eq.
  - destruct ids0; discriminate.
Qed.

Lemma create_search_history_spec query results w :
  wp (create_search_history query results) w (fun o _ =>
    forall h, o = Return (Some h) ->
      h_query h = query /\ sublist (h_results h) results /\
      Forall (fun r => live_hit (db w) r = true) (h_results h)).
Proof.
  unfold create_search_history. wp_step. wp_step.
  eapply wp_mono; [apply valid_results_of_spec |]. cbn beta.
  intros o w1 (valid & -> & (Hd & Hs & Hp) & Hsub & Hall).
  wp_steps. apply wp_db_commit; wsimpl.
  - intros fs. wp_steps. discriminate.
  - intros fs ids s' Hflush.
    destruct ids as [| i [| j ids]]; cbn [inserted]; wp_steps; try discriminate.
    unfold db_refresh_history. wp_steps; try discriminate. cbn [tick search_history].
    rewrite (flush_add_history _ _ _ _ _ _ Hflush). wp_steps.
    intros h [= <-]. cbn. auto.
  - intros fs e s' _. wp_steps. discriminate.
Qed.

(** ** Read paths against the record store *)

Lemma live_hit_not_missing s r a :
  tools s !! a = None -> live_hit s r = true -> hit_id r <> Some a.
Proof.
  intros Hnone Hlive [= Ha]. apply live_hit_inv in Hlive as (z & Hz & _ & Hsome).
  rewrite Ha in Hz. injection Hz as <-. rewrite Hnone in Hsome.
  destruct Hsome; discriminate.
Qed.

Lemma live_hit_truthy s r : live_hit s r = true -> truthy (hit_id r) = true.
Proof.
  unfold live_hit. destruct (hit_id r); [| discriminate].
  intros H. apply andb_true_iff in H. tauto.
Qed.

(** C7 (history snapshot against live filter).  When tool [a] is no longer
    in the record store, ListHistory returns history objects that are stored
    rows with their results thinned, none of them naming [a]; with no failing
    call they are exactly the page of stored rows, each filtered to the live
    tools.  The filtering is done on the loaded objects: the database is the
    same after [get_search_history] and after the whole request, where the
    session is closed without a commit. *)
Theorem history_filtered_on_read a skip limit w :
  tools (db w) !! a = None ->
  (exists items w',
      get_search_history skip limit w = (Return items, w') /\
      db w' = db w /\
      (forall it, it ∈ items ->
         exists row, search_history (db w) !! h_id it = Some row /\
                     h_query it = c_query row /\
                     sublist (h_results it) (c_results row) /\
                     Forall (fun r => hit_id r <> Some a) (h_results it)) /\
      (faults w = [] ->
       items = live_view (db w) <$> history_page w skip limit)) /\
  db (snd (serve (main_get_search_history skip limit) w)) = db w /\
  session (snd (serve (main_get_search_history skip limit) w)) = [].
Proof.
  intros Hgone. split.
  - pose proof (get_search_history_spec skip limit w) as Hspec. unfold wp in Hspec.
    destruct (get_search_history skip limit w) as [o w'] eqn:Hrun.
    cbn [fst snd] in Hspec. destruct Hspec as (Hd & _ & items & -> & Hitems).
    exists items, w'. split; [reflexivity |]. split; [exact Hd |]. split.
    + intros it Hit. destruct Hitems as [-> | Hall]; [inversion Hit |].
      destruct (Forall2_elem_r _ _ _ _ Hall Hit)
        as (h & Hh & Hid & Hq & _ & Hsub & Hlive).
      destruct (history_page_stored _ _ _ _ Hh) as (row & Hrow & Heq).
      exists row. rewrite Hid, Hq. split; [exact Hrow |].
      rewrite Heq in Hsub |- *. cbn in Hsub |- *. split; [reflexivity |].
      split; [exact Hsub |].
      eapply Forall_impl; [exact Hlive |].
      intros r Hr. exact (live_hit_not_missing _ _ _ Hgone Hr).
    + intros Hf. destruct (get_search_history_ok skip limit w Hf) as (w'' & Hok & _).
      rewrite Hok in Hrun. injection Hrun as <- _. reflexivity.
  - pose proof (get_search_history_spec skip limit (put_session [] w)) as Hspec.
    unfold wp in Hspec.
    unfold serve, get_db, main_get_search_history, bind, set_session, try_finally,
      try_except, db_close.
    destruct (get_search_history skip limit (put_session [] w)) as [o w'].
    cbn [fst snd] in Hspec. destruct Hspec as (Hd & _ & items & -> & _).
    cbn. auto.
Qed.

(** C10 (falsy ids).  A result whose id is missing, null or [0] is dropped
    by the existence filter of Search, of the history writer and of
    ListHistory, whatever the record store holds (a tool with id [0]
    included): the store is only asked about a truthy id. *)
Theorem falsy_id_always_dropped w :
  (forall query, exists resp w',
      semantic_search query w = (Return resp, w') /\
      Forall (fun r => truthy (hit_id r) = true) (sr_results resp)) /\
  (forall query results h w',
      create_search_history query results w = (Return (Some h), w') ->
      Forall (fun r => truthy (hit_id r) = true) (h_results h)) /\
  (forall skip limit, exists items w',
      get_search_history skip limit w = (Return items, w') /\
      Forall (fun it => Forall (fun r => truthy (hit_id r) = true) (h_results it))
             items).
Proof.
  split; [| split].
  - intros query. apply wp_returns.
    eapply wp_mono; [apply semantic_search_spec |]. cbn beta.
    intros o _ (hits & valid & -> & _ & _ & Hall).
    eexists. split; [reflexivity |]. cbn [sr_results].
    eapply Forall_impl; [exact Hall |]. intros r. apply live_hit_truthy.
  - intros query results h w' Hrun.
    destruct (wp_run _ _ _ _ _ Hrun (create_search_history_spec query results w)
                h eq_refl) as (_ & _ & Hall).
    eapply Forall_impl; [exact Hall |]. intros r. apply live_hit_truthy.
  - intros skip limit. apply wp_returns.
    eapply wp_mono; [apply get_search_history_spec |]. cbn beta.
    intros o _ (_ & _ & items & -> & Hitems).
    eexists. split; [reflexivity |].
    destruct Hitems as [-> | Hall]; [constructor |].
    apply Forall_forall. intros it Hit.
    destruct (Forall2_elem_r _ _ _ _ Hall Hit) as (h & _ & _ & _ & _ & _ & Hlive).
    eapply Forall_impl; [exact Hlive |]. intros r. apply live_hit_truthy.
Qed.

(** ** The write paths *)

Lemma upsert_tool_spec i name description tags w :
  wp (upsert_tool i name description tags) w (fun o w' =>
    db w' = db w /\ session w' = session w /\
    ((o = Return false /\ points w' = points w) \/
     (o = Return true /\
      exists l, tags = Some l /\
                points w' = <[i := indexed i name description l]> (points w)))).
Proof.
  unfold upsert_tool, get_embedding, client_upsert.
  destruct tags as [l |]; cbn [join_tags]; wp_steps; auto.
  split; [reflexivity |]. split; [reflexivity |].
  right. split; [reflexivity |]. exists l. auto.
Qed.

Lemma db_refresh_tool_spec i w :
  wp (db_refresh_tool i) w (fun o w' =>
    db w' = db w /\ session w' = session w /\ points w' = points w /\
    forall t, o = Return t -> t_id t = i /\ persisted (db w) t).
Proof.
  unfold db_refresh_tool, persisted. wp_steps; try (repeat split; discriminate).
  destruct (tools (db w) !! i) as [row |] eqn:Hrow; wp_steps;
    (do 3 (split; [reflexivity |])); intros t0 Ht0; [| discriminate].
  injection Ht0 as <-. cbn [Tool_of t_id]. rewrite Hrow. auto.
Qed.

Lemma create_tool_insert_spec tool w :
  wp (create_tool_insert tool) w (fun o w' =>
    points w' = points w /\ forall t, o = Return t -> persisted (db w') t).
Proof.
  unfold create_tool_insert. wp_steps. apply wp_db_commit; wsimpl.
  - intros fs. split; [reflexivity | discriminate].
  - intros fs ids s' _.
    destruct ids as [| i [| j ids]]; cbn [inserted]; wp_steps;
      try (split; [reflexivity | discriminate]).
    eapply wp_mono; [apply db_refresh_tool_spec |]. cbn beta. wsimpl.
    intros o w1 (Hd & _ & Hp & Ht). rewrite Hd. split; [exact Hp |].
    intros t Ho. apply (Ht t Ho).
  - intros fs e s' _. split; [reflexivity | discriminate].
Qed.

(** [create_tool] is its record-store half followed by the indexing. *)
Lemma create_tool_run tool w t w1 ok w2 :
  create_tool_insert tool w = (Return t, w1) ->
  upsert_tool (t_id t) (t_name t) (t_description t) (t_tags t) w1 = (Return ok, w2) ->
  create_tool tool w =
  (Return (Some t),
   snd (logger INFO ("Created tool " ++ str_Z (t_id t) ++ ": " ++ t_name t)
     (snd ((if negb ok
            then logger WARNING ("Failed to upsert tool " ++ str_Z (t_id t)
                                 ++ " to vector database")
            else ret tt) w2)))).
Proof.
  unfold create_tool, create_tool_insert, try_except, bind.
  destruct (db_register (PAddTool tool) w) as [[[] | e] wa]; [| discriminate].
  destruct (db_commit wa) as [[ids | e] wb]; [| discriminate].
  destruct (inserted ids wb) as [[i | e] wc]; [| discriminate].
  destruct (db_refresh_tool i wc) as [[t' | e] wd]; [| discriminate].
  intros [= -> ->] ->. destruct ok; reflexivity.
Qed.




(** ** Properties of the write paths *)

(** C3 (degraded-success durability).  When the insert of Create has been
    committed and refreshed and the upsert into the index then fails,
    [create_tool] still returns the tool, the endpoint returns it as its body
    rather than raising, the row is in the record store and [get_tool] finds
    it by id; the failure has only left a warning in the log. *)
Theorem create_survives_index_failure tool w t w1 w2 :
  create_tool_insert tool w = (Return t, w1) ->
  upsert_tool (t_id t) (t_name t) (t_description t) (t_tags t) w1 = (Return false, w2) ->
  exists w3,
    create_tool tool w = (Return (Some t), w3) /\
    main_create_tool tool w = (Return t, w3) /\
    persisted (db w3) t /\
    (forall w4, db w4 = db w3 -> faults w4 = [] ->
                get_tool (t_id t) w4 = (Return (Some t), w4)) /\
    log w3 =
    (log w2 ++ [ {| levelname := WARNING;
                    message := "Failed to upsert tool " ++ str_Z (t_id t)
                               ++ " to vector database" |};
                 {| levelname := INFO;
                    message := "Created tool " ++ str_Z (t_id t) ++ ": " ++ t_name t |} ])%list.
Proof.
  intros Hins Hup.
  pose proof (create_tool_run _ _ _ _ _ _ Hins Hup) as Hrun.
  eexists. split; [exact Hrun |].
  pose proof (wp_run _ _ _ _ _ Hins (create_tool_insert_spec tool w)) as [_ Hper].
  pose proof (wp_run _ _ _ _ _ Hup (upsert_tool_spec _ _ _ _ w1)) as (Hd2 & _ & _).
  assert (Hp : persisted (db w2) t) by (rewrite Hd2; apply Hper; reflexivity).
  split; [| split; [| split]].
  - unfold main_create_tool, bind. rewrite Hrun. reflexivity.
  - exact Hp.
  - intros w4 Hd4 Hf4. rewrite (get_tool_ok _ _ Hf4), Hd4. cbn.
    unfold persisted in Hp. rewrite Hp. reflexivity.
  - cbn. rewrite <- app_assoc. reflexivity.
Qed.

(** ** Update and its two refusals *)

Lemma flush_set_tool_conflict s i tool row :
  tools s !! i = Some row ->
  names_unique s ->
  map_Exists (name_conflict (tb_name tool) (Some i)) (tools s) ->
  exists e, flush [PSetTool i tool] s = (Raise e, s).
Proof.
  intros Hrow Huniq Hconf. cbn [flush flush_op]. rewrite Hrow.
  destruct (decide (c_fields row = tool)) as [Heq | Hne].
  - exfalso. destruct Hconf as (j & rj & Hj & Hname & Hji).
    apply Hji. f_equal. apply (Huniq j i rj row Hj Hrow).
    rewrite Hname, Heq. reflexivity.
  - destruct (decide (map_Exists (name_conflict (tb_name tool) (Some i)) (tools s)));
      [eauto | contradiction].
Qed.

Lemma flush_set_tool_free s i tool row :
  tools s !! i = Some row ->
  ~ map_Exists (name_conflict (tb_name tool) (Some i)) (tools s) ->
  exists s', flush [PSetTool i tool] s = (Return [], s') /\
             is_Some (tools s' !! i).
Proof.
  intros Hrow Hfree. cbn [flush flush_op]. rewrite Hrow.
  destruct (decide (c_fields row = tool)) as [Heq | Hne].
  - exists s. split; [reflexivity | eauto].
  - destruct (decide (map_Exists (name_conflict (tb_name tool) (Some i)) (tools s)));
      [contradiction |].
    eexists. split; [reflexivity |]. cbn. rewrite lookup_insert_eq. eauto.
Qed.

Lemma update_tool_refuses i tool w :
  wp (update_tool i tool) w (fun o _ =>
    exists r, o = Return r /\
      (missing (db w) i \/
       (session w = [] /\ names_unique (db w) /\ name_collides (db w) i tool) ->
       r = None)).
Proof.
  unfold update_tool, query_tool_first, missing, name_collides. wp_steps.
  2: { eexists. split; [reflexivity | reflexivity]. }
  destruct (tools (db w) !! i) as [row |] eqn:Hrow; cbn [fmap option_fmap option_map];
    wp_steps.
  2: { eexists. split; [reflexivity | reflexivity]. }
  cbn [Tool_of t_id]. apply wp_db_commit; wsimpl.
  - intros fs1. wp_steps. eexists. split; reflexivity.
  - intros fs1 ids s' Hflush.
    assert (Hno : ~ (Some row = None \/
              (session w = [] /\ names_unique (db w) /\
               is_Some (Some row) /\
               map_Exists (name_conflict (tb_name tool) (Some i)) (tools (db w))))).
    { intros [Hm | (Hs & Hu & _ & Hc)]; [discriminate |].
      rewrite Hs in Hflush. cbn [app] in Hflush.
      destruct (flush_set_tool_conflict _ _ _ _ Hrow Hu Hc) as [e He].
      rewrite He in Hflush. discriminate. }
    apply wp_any. intros o w'. destruct o as [r | e].
    + eexists. split; [reflexivity |]. intros H. contradiction.
    + destruct e; wp_steps; (eexists; split; reflexivity).
  - intros fs1 e s' _. destruct e; wp_steps; (eexists; split; reflexivity).
Qed.

Lemma upsert_tool_total i name description tags w :
  wp (upsert_tool i name description tags) w (fun o _ => exists ok, o = Return ok).
Proof.
  eapply wp_mono; [apply upsert_tool_spec |]. cbn beta.
  intros o w' (_ & _ & [[-> _] | [-> _]]); eauto.
Qed.

Lemma update_tool_ok i tool w row :
  faults w = [] -> session w = [] ->
  tools (db w) !! i = Some row ->
  ~ map_Exists (name_conflict (tb_name tool) (Some i)) (tools (db w)) ->
  wp (update_tool i tool) w (fun o _ => exists t, o = Return (Some t)).
Proof.
  intros Hf Hs Hrow Hfree.
  destruct (flush_set_tool_free _ _ _ _ Hrow Hfree) as (s' & Hflush & [row' Hrow']).
  unfold update_tool, query_tool_first, db_commit, db_refresh_tool.
  wp_steps_ok Hf. rewrite Hrow.
  cbn [fmap option_fmap option_map Tool_of t_id]. wp_steps_ok Hf.
  rewrite Hs. cbn [app]. rewrite Hflush. wp_steps_ok Hf.
  cbn [tick tools]. rewrite Hrow'. wp_steps_ok Hf.
  eapply wp_mono; [apply upsert_tool_total |]. cbn beta.
  intros o w' [ok ->]. destruct ok; cbn [negb]; wp_steps; eauto.
Qed.

(** C4, as the code has it.  On a fresh session over a store with unique
    names, Update is refused when no tool has the id and when the new name
    belongs to another tool, and (when no call to a collaborator fails) only
    then; but both refusals reach the caller as one and the same error, 404
    "Tool not found or name already exists", and that error is the only one
    the endpoint raises. *)
Theorem update_refusals_share_one_error i tool w :
  session w = [] ->
  names_unique (db w) ->
  (missing (db w) i \/ name_collides (db w) i tool ->
   fst (main_update_tool i tool w) = Raise update_refused) /\
  (faults w = [] ->
   fst (main_update_tool i tool w) = Raise update_refused ->
   missing (db w) i \/ name_collides (db w) i tool) /\
  ((exists t, fst (main_update_tool i tool w) = Return t) \/
   fst (main_update_tool i tool w) = Raise update_refused).
Proof.
  intros Hs Hu.
  pose proof (update_tool_refuses i tool w) as Href. unfold wp in Href.
  unfold main_update_tool, bind.
  destruct (update_tool i tool w) as [o w'] eqn:Hrun. cbn [fst snd] in Href.
  destruct Href as (r & -> & Hr).
  split; [| split].
  - intros H. rewrite Hr; [reflexivity |]. destruct H; auto.
  - intros Hf Hres. unfold missing, name_collides.
    destruct (tools (db w) !! i) as [row |] eqn:Hrow; [| left; reflexivity].
    destruct (decide (map_Exists (name_conflict (tb_name tool) (Some i))
                                 (tools (db w)))) as [Hc | Hfree].
    + right. split; [eauto | exact Hc].
    + exfalso.
      pose proof (wp_run _ _ _ _ _ Hrun (update_tool_ok i tool w row Hf Hs Hrow Hfree))
        as [t [= ->]].
      discriminate.
  - destruct r as [t |]; [left; eauto | right; reflexivity].
Qed.

(** A store whose names are pairwise distinct satisfies the invariant. *)
Lemma names_unique_NoDup s :
  NoDup ((fun kv => tb_name (c_fields (snd kv))) <$> map_to_list (tools s)) ->
  names_unique s.
Proof.
  intros Hnd i j ri rj Hi Hj Hname.
  apply elem_of_map_to_list in Hi, Hj.
  apply list_elem_of_lookup in Hi as [a Ha], Hj as [b Hb].
  assert (Hab : a = b).
  { eapply NoDup_lookup; [exact Hnd | |]; rewrite list_lookup_fmap.
    - rewrite Ha. reflexivity.
    - rewrite Hb. cbn. rewrite Hname. reflexivity. }
  subst b. rewrite Ha in Hb. injection Hb as -> _. reflexivity.
Qed.

(** ** Further properties: Create *)

Lemma wp_elim {A} (m : M A) w Q :
  wp m w Q -> exists o w', m w = (o, w') /\ Q o w'.
Proof.
  unfold wp. destruct (m w) as [o w']. eauto.
Qed.

Lemma flush_add_tool s tool :
  flush [PAddTool tool] s =
  if decide (is_Some (tools s !! tools_id_seq s) \/ name_taken s (tb_name tool))
  then (Raise IntegrityError, with_tools s (tools s) (tools_id_seq s + 1))
  else (Return [tools_id_seq s],
        with_tools s (<[tools_id_seq s := inserted_row s tool]> (tools s))
                   (tools_id_seq s + 1)).
Proof.
  unfold name_taken. cbn [flush flush_op].
  destruct (decide _); reflexivity.
Qed.

(** Everything [create_tool] can do on a fresh session: refuse and leave the
    rows alone, or insert the row under the next id and then return the
    tool, or return [None] when the refresh fails. *)
Lemma create_tool_steps tool w :
  session w = [] ->
  wp (create_tool tool) w (fun o w' =>
    search_history (db w') = search_history (db w) /\
    ((o = Return None /\ tools (db w') = tools (db w) /\ points w' = points w /\
      tools_id_seq (db w) <= tools_id_seq (db w') <= tools_id_seq (db w) + 1) \/
     (~ name_taken (db w) (tb_name tool) /\
      tools (db w) !! tools_id_seq (db w) = None /\
      tools (db w') = <[tools_id_seq (db w) := inserted_row (db w) tool]> (tools (db w)) /\
      tools_id_seq (db w') = tools_id_seq (db w) + 1 /\
      ((o = Return None /\ points w' = points w) \/
       (o = Return (Some (Tool_of (tools_id_seq (db w)) (inserted_row (db w) tool))) /\
        index_follows w w'
          (Tool_of (tools_id_seq (db w)) (inserted_row (db w) tool))))))).
Proof.
  intros Hs. unfold create_tool. wp_steps. apply wp_db_commit; wsimpl.
  - intros fs. wp_steps. split; [reflexivity |]. left. repeat split; lia.
  - intros fs ids s'. rewrite Hs. cbn [app]. rewrite flush_add_tool.
    destruct (decide _) as [Hbad | Hfree]; [discriminate |].
    intros [= <- <-]. cbn [inserted]. wp_steps.
    assert (Hname : ~ name_taken (db w) (tb_name tool)) by tauto.
    assert (Hseq : tools (db w) !! tools_id_seq (db w) = None).
    { destruct (tools (db w) !! tools_id_seq (db w)) eqn:E; [| reflexivity].
      exfalso. apply Hfree. left. eauto. }
    unfold db_refresh_tool. wp_steps.
    + cbn [tick with_tools tools]. rewrite lookup_insert_eq. wp_steps.
      eapply wp_mono; [apply upsert_tool_spec |]. cbn beta. wsimpl.
      intros o w1 (Hd & _ & Hidx).
      assert (Hfollow : index_follows w w1
                (Tool_of (tools_id_seq (db w)) (inserted_row (db w) tool))).
      { unfold index_follows.
        destruct Hidx as [[_ ->] | (_ & l & Hl & ->)]; [left; reflexivity |].
        right. exists l. auto. }
      destruct Hidx as [[-> _] | [-> _]]; cbn [negb]; wp_steps; rewrite Hd;
        (split; [reflexivity |]; right; repeat split; auto).
    + split; [reflexivity |]. right. repeat split; auto.
  - intros fs e s'. rewrite Hs. cbn [app]. rewrite flush_add_tool.
    destruct (decide _) as [Hbad | Hfree]; [| discriminate].
    intros [= <- <-]. wp_steps. split; [reflexivity |]. left.
    cbn. repeat split; lia.
Qed.

Lemma wp_external_next e w (Q : outcome unit -> World -> Prop) f fs :
  faults w = f :: fs ->
  Q (if f then Raise e else Return tt) (put_faults fs w) ->
  wp (external e) w Q.
Proof.
  intros Hf HQ. unfold wp, external, bind, next_fault. rewrite Hf.
  destruct f; exact HQ.
Qed.

(** A step when the head of the fault script is known. *)
Ltac wp_step_next :=
  lazymatch goal with
  | |- wp (external _) _ _ =>
      eapply wp_external_next; [wsimpl; first [eassumption | reflexivity] |];
      cbn iota
  | |- _ => wp_step_local
  end.

Ltac wp_steps_next := repeat (wp_step_next; wsimpl).

Lemma upsert_tool_ok i name description tags w :
  faults w = [] ->
  wp (upsert_tool i name description tags) w (fun o w' =>
    faults w' = [] /\ db w' = db w /\ session w' = session w /\
    match tags with
    | Some l => o = Return true /\
                points w' = <[i := indexed i name description l]> (points w)
    | None => o = Return false /\ points w' = points w
    end).
Proof.
  intros Hf. unfold upsert_tool, get_embedding, client_upsert.
  destruct tags as [l |]; cbn [join_tags]; wp_steps_ok Hf; auto.
Qed.

Lemma create_tool_ok tool w :
  faults w = [] -> session w = [] ->
  ~ name_taken (db w) (tb_name tool) ->
  tools (db w) !! tools_id_seq (db w) = None ->
  wp (create_tool tool) w (fun o w' =>
    o = Return (Some (Tool_of (tools_id_seq (db w)) (inserted_row (db w) tool))) /\
    faults w' = [] /\ session w' = [] /\
    tools (db w') = <[tools_id_seq (db w) := inserted_row (db w) tool]> (tools (db w)) /\
    tools_id_seq (db w') = tools_id_seq (db w) + 1 /\
    search_history (db w') = search_history (db w) /\
    points w' =
    match tb_tags tool with
    | Some l => <[tools_id_seq (db w) :=
                    indexed (tools_id_seq (db w)) (tb_name tool) (tb_description tool) l]>
                  (points w)
    | None => points w
    end).
Proof.
  intros Hf Hs Hname Hseq.
  unfold create_tool, db_commit, db_refresh_tool. wp_steps_ok Hf.
  rewrite Hs. cbn [app]. rewrite flush_add_tool.
  destruct (decide _) as [Hbad | _].
  { exfalso. destruct Hbad as [[r Hr] | Hbad]; [congruence | contradiction]. }
  wp_steps_ok Hf. cbn [inserted]. wp_steps_ok Hf.
  cbn [tick with_tools tools]. rewrite lookup_insert_eq. wp_steps_ok Hf.
  eapply wp_mono; [apply upsert_tool_ok; wsimpl; exact Hf |]. cbn beta. wsimpl.
  cbn [Tool_of t_id t_name t_description t_tags inserted_row c_fields].
  intros o w1 (Hf1 & Hd & Hs1 & Hup).
  destruct (tb_tags tool) as [l |]; destruct Hup as [-> Hp]; cbn [negb];
    wp_steps; rewrite Hd, Hs1; repeat split; auto.
Qed.

(** X1.  On a fresh session, Create with a name some tool already has is
    refused whichever calls fail: [create_tool] returns [None], the endpoint
    raises 400, and the rows of both tables and the index are as before. *)
Theorem create_rejects_taken_name tool w :
  session w = [] ->
  name_taken (db w) (tb_name tool) ->
  exists w',
    create_tool tool w = (Return None, w') /\
    main_create_tool tool w = (Raise create_refused, w') /\
    tools (db w') = tools (db w) /\
    search_history (db w') = search_history (db w) /\
    points w' = points w.
Proof.
  intros Hs Htaken.
  destruct (wp_elim _ _ _ (create_tool_steps tool w Hs)) as (o & w' & Hrun & Hh & Hcase).
  destruct Hcase as [(-> & Ht & Hp & _) | (Hfree & _)]; [| contradiction].
  exists w'. split; [exact Hrun |]. split; [| auto].
  unfold main_create_tool, bind. rewrite Hrun. reflexivity.
Qed.

(** X2.  On a fresh session with no failing call, Create with a free name
    and a free next id returns the tool made of the next id and the given
    fields, stores exactly that row and no other change, advances the
    sequence by one, indexes the tool when its tags are a list, and
    [get_tool] then finds the tool under its id. *)
Theorem create_then_get tool w :
  faults w = [] -> session w = [] ->
  ~ name_taken (db w) (tb_name tool) ->
  tools (db w) !! tools_id_seq (db w) = None ->
  exists w',
    create_tool tool w =
    (Return (Some (Tool_of (tools_id_seq (db w)) (inserted_row (db w) tool))), w') /\
    tools (db w') = <[tools_id_seq (db w) := inserted_row (db w) tool]> (tools (db w)) /\
    tools_id_seq (db w') = tools_id_seq (db w) + 1 /\
    points w' =
    match tb_tags tool with
    | Some l => <[tools_id_seq (db w) :=
                    indexed (tools_id_seq (db w)) (tb_name tool) (tb_description tool) l]>
                  (points w)
    | None => points w
    end /\
    get_tool (tools_id_seq (db w)) w' =
    (Return (Some (Tool_of (tools_id_seq (db w)) (inserted_row (db w) tool))), w').
Proof.
  intros Hf Hs Hname Hseq.
  destruct (wp_elim _ _ _ (create_tool_ok tool w Hf Hs Hname Hseq))
    as (o & w' & Hrun & -> & Hf' & _ & Ht & Hq & _ & Hp).
  exists w'. repeat split; auto.
  rewrite (get_tool_ok _ _ Hf'), Ht, lookup_insert_eq. reflexivity.
Qed.

(** X3.  When the commit of Create fails for a reason of the database, the
    endpoint still answers 400 "Tool with this name already exists", whether
    or not the name is taken; nothing is stored or indexed. *)
Theorem create_reports_database_failure_as_taken_name tool w fs :
  faults w = true :: fs ->
  fst (serve (main_create_tool tool) w) =
    HTTP_Error 400 "Tool with this name already exists" /\
  db (snd (serve (main_create_tool tool) w)) = db w /\
  points (snd (serve (main_create_tool tool) w)) = points w.
Proof.
  destruct w as [d s p f l]. cbn [faults]. intros ->.
  repeat split; reflexivity.
Qed.

(** X4.  When the insert of Create is committed and [db.refresh] then
    raises, [create_tool] returns [None] and the endpoint answers 400,
    although the row is in the record store; nothing is indexed. *)
Theorem create_reports_failure_after_commit tool w fs :
  faults w = false :: true :: fs -> session w = [] ->
  ~ name_taken (db w) (tb_name tool) ->
  tools (db w) !! tools_id_seq (db w) = None ->
  exists w',
    create_tool tool w = (Return None, w') /\
    main_create_tool tool w = (Raise create_refused, w') /\
    tools (db w') !! tools_id_seq (db w) = Some (inserted_row (db w) tool) /\
    points w' = points w.
Proof.
  intros Hf Hs Hname Hseq.
  assert (H : wp (create_tool tool) w (fun o w' =>
            o = Return None /\
            tools (db w') !! tools_id_seq (db w) = Some (inserted_row (db w) tool) /\
            points w' = points w)).
  { unfold create_tool, db_commit, db_refresh_tool. wp_steps_next.
    rewrite Hs. cbn [app]. rewrite flush_add_tool.
    destruct (decide _) as [Hbad | _].
    { exfalso. destruct Hbad as [[r Hr] | Hbad]; [congruence | contradiction]. }
    wp_steps_next. cbn [inserted]. wp_steps_next.
    repeat split. cbn. apply lookup_insert_eq. }
  destruct (wp_elim _ _ _ H) as (o & w' & Hrun & -> & Ht & Hp).
  exists w'. split; [exact Hrun |]. split; [| auto].
  unfold main_create_tool, bind. rewrite Hrun. reflexivity.
Qed.

(** ** Further properties: Delete and reads by id *)

Lemma delete_tool_steps i w :
  wp (delete_tool i) w (fun o w' =>
    db w' = db w /\ session w' = session w /\
    ((o = Return true /\ points w' = delete i (points w)) \/
     (o = Return false /\ points w' = points w))).
Proof.
  unfold delete_tool, client_delete. wp_steps; auto.
Qed.

(** Everything [delete_tool_db] can do on a fresh session. *)
Lemma delete_tool_db_steps i w :
  session w = [] ->
  wp (delete_tool_db i) w (fun o w' =>
    search_history (db w') = search_history (db w) /\
    tools_id_seq (db w') = tools_id_seq (db w) /\
    ((o = Return false /\ tools (db w') = tools (db w) /\ points w' = points w) \/
     (o = Return true /\ is_Some (tools (db w) !! i) /\
      tools (db w') = delete i (tools (db w)) /\
      (points w' = points w \/ points w' = delete i (points w))))).
Proof.
  intros Hs. unfold delete_tool_db, query_tool_first. wp_steps; auto 7.
  destruct (tools (db w) !! i) as [row |] eqn:Hrow;
    cbn [fmap option_fmap option_map]; wp_steps; auto 7.
  cbn [Tool_of t_id]. apply wp_db_commit; wsimpl.
  - intros fs1. wp_steps. auto 7.
  - intros fs1 ids s'. rewrite Hs. cbn [app flush flush_op].
    intros [= <- <-]. wp_step.
    eapply wp_mono; [apply delete_tool_steps |]. cbn beta. wsimpl.
    intros o w1 (Hd & _ & Hp).
    assert (Hpts : points w1 = points w \/ points w1 = delete i (points w))
      by (destruct Hp as [[_ ->] | [_ ->]]; auto).
    destruct Hp as [[-> _] | [-> _]]; wp_steps; cbn [negb]; wp_steps; rewrite Hd; cbn;
      (split; [reflexivity |]; split; [reflexivity |]; right; eauto).
  - intros fs1 e s'. rewrite Hs. cbn [app flush flush_op]. discriminate.
Qed.

Lemma delete_tool_db_ok i w :
  faults w = [] -> session w = [] -> is_Some (tools (db w) !! i) ->
  wp (delete_tool_db i) w (fun o w' =>
    o = Return true /\ points w' = delete i (points w)).
Proof.
  intros Hf Hs [row Hrow].
  unfold delete_tool_db, query_tool_first, db_commit, delete_tool, client_delete.
  wp_steps_ok Hf. rewrite Hrow. cbn [fmap option_fmap option_map Tool_of t_id].
  wp_steps_ok Hf. rewrite Hs. cbn [app flush flush_op]. wp_steps_ok Hf.
  cbn [negb]. wp_steps_ok Hf. auto.
Qed.

Lemma delete_tool_db_missing i w :
  tools (db w) !! i = None ->
  wp (delete_tool_db i) w (fun o w' =>
    o = Return false /\ db w' = db w /\ points w' = points w).
Proof.
  intros Hnone. unfold delete_tool_db, query_tool_first. wp_steps; auto.
  rewrite Hnone. cbn [fmap option_fmap option_map]. wp_steps. auto.
Qed.

(** X5.  Delete of an id no tool has is refused whichever calls fail:
    [delete_tool_db] returns [False], the endpoint raises 404 "Tool not
    found", and neither the database nor the index is touched. *)
Theorem delete_missing_is_refused i w :
  tools (db w) !! i = None ->
  exists w',
    delete_tool_db i w = (Return false, w') /\
    delete_tool_endpoint i w = (Raise not_found, w') /\
    db w' = db w /\ points w' = points w.
Proof.
  intros Hnone.
  destruct (wp_elim _ _ _ (delete_tool_db_missing i w Hnone))
    as (o & w' & Hrun & -> & Hd & Hp).
  exists w'. split; [exact Hrun |]. split; [| auto].
  unfold delete_tool_endpoint, bind. rewrite Hrun. reflexivity.
Qed.

(** X6.  On a fresh session, when Delete reports success the tool existed,
    its row and only its row has left the record store, the history is as it
    was, and the index has either lost the point of that id or, when Qdrant
    failed, is unchanged; and with no failing call Delete of a stored tool
    does report success and removes the point. *)
Theorem delete_removes_exactly_that_tool i w :
  session w = [] ->
  (forall w', delete_tool_db i w = (Return true, w') ->
     is_Some (tools (db w) !! i) /\
     tools (db w') = delete i (tools (db w)) /\
     search_history (db w') = search_history (db w) /\
     (points w' = points w \/ points w' = delete i (points w))) /\
  (faults w = [] -> is_Some (tools (db w) !! i) ->
   exists w', delete_tool_db i w = (Return true, w') /\
              points w' = delete i (points w)).
Proof.
  intros Hs. split.
  - intros w' Hrun.
    destruct (wp_run _ _ _ _ _ Hrun (delete_tool_db_steps i w Hs))
      as (Hh & _ & [(Hfalse & _) | (_ & Hsome & Ht & Hp)]); [discriminate |].
    auto.
  - intros Hf Hsome.
    destruct (wp_elim _ _ _ (delete_tool_db_ok i w Hf Hs Hsome))
      as (o & w' & Hrun & -> & Hp).
    eauto.
Qed.

Lemma read_tool_missing i w :
  tools (db w) !! i = None -> fst (read_tool i w) = Raise not_found.
Proof.
  intros Hnone. unfold read_tool, bind.
  pose proof (get_tool_spec i w) as Hspec. unfold wp in Hspec.
  destruct (get_tool i w) as [o w']. cbn [fst snd] in Hspec.
  destruct Hspec as [_ [-> | ->]]; [reflexivity |].
  rewrite Hnone. reflexivity.
Qed.

(** X7.  Delete is final: once Delete has reported success for an id, on any
    later world with the same table of tools the read, update and delete
    endpoints all refuse that id with a 404, whichever calls fail. *)
Theorem deleted_id_is_refused_everywhere i w w1 :
  delete_tool_db i w = (Return true, w1) ->
  forall w2 tool, tools (db w2) = tools (db w1) ->
    fst (read_tool i w2) = Raise not_found /\
    fst (main_update_tool i tool w2) = Raise update_refused /\
    fst (delete_tool_endpoint i w2) = Raise not_found.
Proof.
  intros Hdel w2 tool Htools.
  assert (Hgone : tools (db w2) !! i = None).
  { rewrite Htools. exact (wp_run _ _ _ _ _ Hdel (delete_tool_db_spec i w) eq_refl). }
  split; [exact (read_tool_missing i w2 Hgone) |]. split.
  - pose proof (update_tool_refuses i tool w2) as Href. unfold wp in Href.
    unfold main_update_tool, bind.
    destruct (update_tool i tool w2) as [o w']. cbn [fst snd] in Href.
    destruct Href as (r & -> & Hr). rewrite Hr; [reflexivity |]. left. exact Hgone.
  - destruct (wp_elim _ _ _ (delete_tool_db_missing i w2 Hgone))
      as (o & w' & Hrun & -> & _).
    unfold delete_tool_endpoint, bind. rewrite Hrun. reflexivity.
Qed.

(** ** Further properties: Update *)

Lemma flush_set_tool s i tool row :
  tools s !! i = Some row ->
  flush [PSetTool i tool] s =
  if decide (c_fields row = tool) then (Return [], s)
  else if decide (map_Exists (name_conflict (tb_name tool) (Some i)) (tools s))
       then (Raise IntegrityError, s)
       else (Return [], with_tools s (<[i := updated_row s row tool]> (tools s))
                                   (tools_id_seq s)).
Proof.
  intros Hrow. cbn [flush flush_op]. rewrite Hrow.
  destruct (decide (c_fields row = tool)); [reflexivity |].
  destruct (decide _); reflexivity.
Qed.

Lemma updated_tools_lookup s i row tool m :
  tools s !! i = Some row ->
  updated_tools s i row tool m ->
  exists row', m !! i = Some row' /\ c_fields row' = tool /\
               c_created_at row' = c_created_at row.
Proof.
  intros Hrow [[Heq ->] | (_ & _ & ->)].
  - exists row. auto.
  - exists (updated_row s row tool). rewrite lookup_insert_eq. auto.
Qed.

(** Everything [update_tool] can do on a fresh session. *)
Lemma update_tool_steps i tool w :
  session w = [] ->
  wp (update_tool i tool) w (fun o w' =>
    search_history (db w') = search_history (db w) /\
    tools_id_seq (db w') = tools_id_seq (db w) /\
    ((o = Return None /\ tools (db w') = tools (db w) /\ points w' = points w) \/
     (exists row,
        tools (db w) !! i = Some row /\
        updated_tools (db w) i row tool (tools (db w')) /\
        ((o = Return None /\ points w' = points w) \/
         (exists row', tools (db w') !! i = Some row' /\
                       o = Return (Some (Tool_of i row')) /\
                       index_follows w w' (Tool_of i row')))))).
Proof.
  intros Hs. unfold update_tool, query_tool_first. wp_steps; auto 7.
  destruct (tools (db w) !! i) as [row |] eqn:Hrow;
    cbn [fmap option_fmap option_map]; wp_steps; auto 7.
  cbn [Tool_of t_id]. apply wp_db_commit; wsimpl.
  - intros fs1. wp_steps. auto 7.
  - intros fs1 ids s'. rewrite Hs. cbn [app]. rewrite (flush_set_tool _ _ _ _ Hrow).
    intros Hflush.
    assert (Hstep : updated_tools (db w) i row tool (tools s') /\
                    search_history s' = search_history (db w) /\
                    tools_id_seq s' = tools_id_seq (db w)).
    { unfold updated_tools.
      destruct (decide (c_fields row = tool)) as [Heq | Hne].
      - injection Hflush as _ <-. auto.
      - destruct (decide _) as [Hc | Hfree]; [discriminate |].
        injection Hflush as _ <-. cbn. auto 7. }
    destruct Hstep as (Hup & Hh & Hq).
    destruct (updated_tools_lookup _ _ _ _ _ Hrow Hup) as (row' & Hrow' & _).
    unfold db_refresh_tool. wp_steps.
    + cbn [tick tools]. rewrite Hrow'. wp_steps.
      eapply wp_mono; [apply upsert_tool_spec |]. cbn beta. wsimpl.
      intros o w1 (Hd & _ & Hidx).
      assert (Hfollow : index_follows w w1 (Tool_of i row')).
      { unfold index_follows.
        destruct Hidx as [[_ ->] | (_ & l & Hl & ->)]; [left; reflexivity |].
        right. exists l. auto. }
      destruct Hidx as [[-> _] | [-> _]]; wp_steps; cbn [negb]; wp_steps;
        rewrite Hd; cbn [tick tools search_history tools_id_seq];
        (split; [exact Hh |]; split; [exact Hq |]; right; exists row;
         split; [reflexivity |]; split; [exact Hup |]; right; exists row'; auto).
    + cbn [tick tools search_history tools_id_seq].
      split; [exact Hh |]. split; [exact Hq |]. right. exists row. auto.
  - intros fs1 e s'. rewrite Hs. cbn [app]. rewrite (flush_set_tool _ _ _ _ Hrow).
    destruct (decide (c_fields row = tool)); [discriminate |].
    destruct (decide _); [| discriminate].
    intros [= <- <-]. wp_steps. cbn. auto 7.
Qed.

(** X8.  On a fresh session, when Update returns a tool, whichever calls
    failed on the way: the tool has the requested id, which existed, and
    exactly the new fields; its creation time is the old one; it is the row
    the store now holds; and no other row and not the sequence of tool ids
    has changed.  With
    no failing call, Update of a stored tool to a name no other tool has does
    return a tool. *)
Theorem update_rewrites_one_row i tool w :
  session w = [] ->
  (forall t w', update_tool i tool w = (Return (Some t), w') ->
     exists old,
       tools (db w) !! i = Some old /\
       t_id t = i /\
       t_name t = tb_name tool /\ t_description t = tb_description tool /\
       t_tags t = tb_tags tool /\ t_tool_metadata t = tb_tool_metadata tool /\
       t_created_at t = c_created_at old /\
       persisted (db w') t /\
       (forall j, j <> i -> tools (db w') !! j = tools (db w) !! j) /\
       tools_id_seq (db w') = tools_id_seq (db w)) /\
  (faults w = [] -> is_Some (tools (db w) !! i) ->
   ~ map_Exists (name_conflict (tb_name tool) (Some i)) (tools (db w)) ->
   exists t w', update_tool i tool w = (Return (Some t), w')).
Proof.
  intros Hs. split.
  - intros t w' Hrun.
    destruct (wp_run _ _ _ _ _ Hrun (update_tool_steps i tool w Hs))
      as (_ & Hq & [(Hnone & _) | (old & Hold & Hup & Hres)]); [discriminate |].
    destruct Hres as [(Hnone & _) | (row' & Hrow' & [= ->] & _)]; [discriminate |].
    destruct (updated_tools_lookup _ _ _ _ _ Hold Hup) as (r & Hr & Hfields & Hcreated).
    rewrite Hrow' in Hr. injection Hr as <-.
    exists old. cbn [Tool_of t_id t_name t_description t_tags t_tool_metadata
                   t_created_at].
    rewrite Hfields. repeat split; auto.
    + unfold persisted. cbn [Tool_of t_id]. rewrite Hrow'. reflexivity.
    + intros j Hj. destruct Hup as [[_ ->] | (_ & _ & ->)]; [reflexivity |].
      apply lookup_insert_ne. congruence.
  - intros Hf [row Hrow] Hfree.
    destruct (wp_elim _ _ _ (update_tool_ok i tool w row Hf Hs Hrow Hfree))
      as (o & w' & Hrun & t & ->).
    eauto.
Qed.

(** X9.  On a fresh session, when Create returns a tool, whichever calls
    failed on the way: its id was the next value of the sequence and was the
    id of no stored tool, its fields are the requested ones, it is the row the
    store now holds, and every other row is as before: Create never
    overwrites a tool. *)
Theorem create_never_overwrites tool w t w' :
  session w = [] ->
  create_tool tool w = (Return (Some t), w') ->
  t_id t = tools_id_seq (db w) /\
  tools (db w) !! t_id t = None /\
  t_name t = tb_name tool /\ t_description t = tb_description tool /\
  t_tags t = tb_tags tool /\ t_tool_metadata t = tb_tool_metadata tool /\
  persisted (db w') t /\
  (forall j, j <> t_id t -> tools (db w') !! j = tools (db w) !! j).
Proof.
  intros Hs Hrun.
  destruct (wp_run _ _ _ _ _ Hrun (create_tool_steps tool w Hs))
    as (_ & [(Hnone & _) | (_ & Hfree & Ht & _ & Hres)]); [discriminate |].
  destruct Hres as [(Hnone & _) | ([= ->] & _)]; [discriminate |].
  cbn [Tool_of t_id t_name t_description t_tags t_tool_metadata inserted_row c_fields].
  repeat split; auto.
  - unfold persisted. cbn [Tool_of t_id]. rewrite Ht, lookup_insert_eq. reflexivity.
  - intros j Hj. rewrite Ht. apply lookup_insert_ne. congruence.
Qed.

(** X10.  A tool whose tags are null is never indexed: on a fresh session,
    when Create or Update is given [tags = None] and returns a tool, the
    Qdrant collection is exactly as before (joining [None] raises inside
    [upsert_tool], which reports [False]). *)
Theorem null_tags_are_never_indexed tool w t w' :
  session w = [] ->
  tb_tags tool = None ->
  (create_tool tool w = (Return (Some t), w') \/
   exists i, update_tool i tool w = (Return (Some t), w')) ->
  points w' = points w.
Proof.
  intros Hs Htags [Hrun | [i Hrun]].
  - destruct (wp_run _ _ _ _ _ Hrun (create_tool_steps tool w Hs))
      as (_ & [(Hnone & _) | (_ & _ & _ & _ & Hres)]); [discriminate |].
    destruct Hres as [(Hnone & _) | ([= ->] & Hfollow)]; [discriminate |].
    destruct Hfollow as [Hp | (l & Hl & _)]; [exact Hp |].
    cbn in Hl. congruence.
  - destruct (wp_run _ _ _ _ _ Hrun (update_tool_steps i tool w Hs))
      as (_ & _ & [(Hnone & _) | (old & Hold & Hup & Hres)]); [discriminate |].
    destruct Hres as [(Hnone & _) | (row' & Hrow' & [= ->] & Hfollow)];
      [discriminate |].
    destruct (updated_tools_lookup _ _ _ _ _ Hold Hup) as (r & Hr & Hfields & _).
    rewrite Hrow' in Hr. injection Hr as <-.
    destruct Hfollow as [Hp | (l & Hl & _)]; [exact Hp |].
    cbn in Hl. rewrite Hfields in Hl. congruence.
Qed.

(** ** Further properties: invariants of the record store *)

Lemma names_unique_same s s' :
  tools s' = tools s -> names_unique s -> names_unique s'.
Proof. unfold names_unique. intros ->. auto. Qed.

Lemma names_unique_insert s s' i r :
  names_unique s ->
  tools s' = <[i := r]> (tools s) ->
  (forall j rj, j <> i -> tools s !! j = Some rj ->
                tb_name (c_fields rj) <> tb_name (c_fields r)) ->
  names_unique s'.
Proof.
  intros Hu Ht Hfresh a b ra rb. rewrite Ht.
  rewrite !lookup_insert_Some.
  intros [[<- <-] | [Ha Hra]] [[<- <-] | [Hb Hrb]] Hname; try reflexivity.
  - exfalso. eapply (Hfresh b rb); eauto.
  - exfalso. eapply (Hfresh a ra); eauto.
  - eapply Hu; eauto.
Qed.

Lemma names_unique_delete s s' i :
  names_unique s -> tools s' = delete i (tools s) -> names_unique s'.
Proof.
  intros Hu Ht a b ra rb. rewrite Ht. rewrite !lookup_delete_Some.
  intros [_ Ha] [_ Hb]. eapply Hu; eauto.
Qed.

(** X11.  Create, Update and Delete keep the record store well formed,
    whichever calls fail: on a fresh session over a store where tool names
    are unique and every id in use is below the next value of the sequence,
    the store they leave has both properties again. *)
Theorem writes_keep_store_well_formed w :
  session w = [] ->
  names_unique (db w) -> keys_below_seq (db w) ->
  (forall tool,
      names_unique (db (snd (create_tool tool w))) /\
      keys_below_seq (db (snd (create_tool tool w)))) /\
  (forall i tool,
      names_unique (db (snd (update_tool i tool w))) /\
      keys_below_seq (db (snd (update_tool i tool w)))) /\
  (forall i,
      names_unique (db (snd (delete_tool_db i w))) /\
      keys_below_seq (db (snd (delete_tool_db i w)))).
Proof.
  intros Hs Hu Hk. split; [| split].
  - intros tool. pose proof (create_tool_steps tool w Hs) as H. unfold wp in H.
    destruct (create_tool tool w) as [o w']. cbn [fst snd] in *.
    destruct H as (_ & [(_ & Ht & _ & Hq) | (Hfree & Hnone & Ht & Hq & _)]).
    + split; [exact (names_unique_same _ _ Ht Hu) |].
      intros j. rewrite Ht. intros Hj. specialize (Hk j Hj). lia.
    + split.
      * apply (names_unique_insert _ _ _ _ Hu Ht). intros j rj _ Hj Hname.
        apply Hfree. exists j, rj. split; [exact Hj |]. split; [exact Hname | discriminate].
      * intros j. rewrite Ht, Hq. rewrite lookup_insert_is_Some.
        intros [<- | [_ Hj]]; [lia |]. specialize (Hk j Hj). lia.
  - intros i tool. pose proof (update_tool_steps i tool w Hs) as H. unfold wp in H.
    destruct (update_tool i tool w) as [o w']. cbn [fst snd] in *.
    destruct H as (_ & Hq & [(_ & Ht & _) | (old & Hold & Hup & _)]).
    + split; [exact (names_unique_same _ _ Ht Hu) |].
      intros j. rewrite Ht, Hq. apply Hk.
    + destruct Hup as [[_ Ht] | (_ & Hfree & Ht)].
      * split; [exact (names_unique_same _ _ Ht Hu) |].
        intros j. rewrite Ht, Hq. apply Hk.
      * split.
        -- apply (names_unique_insert _ _ _ _ Hu Ht). intros j rj Hji Hj Hname.
           apply Hfree. exists j, rj. split; [exact Hj |].
           split; [exact Hname | congruence].
        -- intros j. rewrite Ht, Hq. rewrite lookup_insert_is_Some.
           intros [<- | [_ Hj]]; [apply Hk; eauto | apply Hk; exact Hj].
  - intros i. pose proof (delete_tool_db_steps i w Hs) as H. unfold wp in H.
    destruct (delete_tool_db i w) as [o w']. cbn [fst snd] in *.
    destruct H as (_ & Hq & [(_ & Ht & _) | (_ & _ & Ht & _)]).
    + split; [exact (names_unique_same _ _ Ht Hu) |].
      intros j. rewrite Ht, Hq. apply Hk.
    + split; [exact (names_unique_delete _ _ _ Hu Ht) |].
      intros j. rewrite Ht, Hq. intros [r Hr]. apply lookup_delete_Some in Hr.
      apply Hk. destruct Hr. eauto.
Qed.

(** ** Further properties: listing the tools *)

Lemma StronglySorted_sublist {A} (R : relation A) (k l : list A) :
  sublist k l -> StronglySorted R l -> StronglySorted R k.
Proof.
  induction 1 as [| x k l Hsub IH | x k l Hsub IH]; intros Hs.
  - constructor.
  - apply StronglySorted_inv in Hs as [Hl Hx]. constructor; [auto |].
    exact (Forall_sublist _ _ _ Hsub Hx).
  - apply StronglySorted_inv in Hs as [Hl _]. auto.
Qed.

Lemma StronglySorted_strict {A} (f : A -> Z) (l : list A) :
  StronglySorted (fun a b => f a <= f b) l ->
  NoDup (f <$> l) ->
  StronglySorted (fun a b => f a < f b) l.
Proof.
  induction 1 as [| x l Hl IH Hx]; intros Hnd; [constructor |].
  cbn in Hnd. apply NoDup_cons in Hnd as [Hnotin Hnd].
  constructor; [auto |].
  apply Forall_forall. intros y Hy. rewrite Forall_forall in Hx.
  specialize (Hx y Hy). cbn beta in Hx.
  assert (f x <> f y).
  { intros Heq. apply Hnotin. rewrite Heq. apply list_elem_of_fmap. eauto. }
  lia.
Qed.

#[local] Instance by_id_total : Total by_id.
Proof. intros a b. unfold by_id. lia. Qed.

#[local] Instance by_id_trans : Transitive by_id.
Proof. intros a b c. unfold by_id. lia. Qed.

#[local] Instance newer_total : Total newer.
Proof. intros a b. unfold newer. lia. Qed.

#[local] Instance newer_trans : Transitive newer.
Proof. intros a b c. unfold newer. lia. Qed.

Lemma tool_objects_ids (m : gmap Z ToolRow) :
  t_id <$> tool_objects m = (map_to_list m).*1.
Proof.
  unfold tool_objects. rewrite <- list_fmap_compose.
  apply list_fmap_ext. intros _ [i r] _. reflexivity.
Qed.

Lemma elem_of_tool_objects (m : gmap Z ToolRow) t :
  t ∈ tool_objects m <-> Tool_of (t_id t) <$> m !! t_id t = Some t.
Proof.
  unfold tool_objects. rewrite list_elem_of_fmap. split.
  - intros ([i r] & -> & Hin). apply elem_of_map_to_list in Hin.
    cbn. rewrite Hin. reflexivity.
  - intros H. destruct (m !! t_id t) as [r |] eqn:Hr; [| discriminate].
    exists (t_id t, r). split; [cbn in *; congruence |].
    apply elem_of_map_to_list. exact Hr.
Qed.

Lemma tools_by_id_sorted (m : gmap Z ToolRow) :
  StronglySorted (fun a b => t_id a < t_id b) (tools_by_id m).
Proof.
  unfold tools_by_id. apply StronglySorted_strict.
  - apply (StronglySorted_merge_sort by_id).
  - rewrite merge_sort_Permutation, tool_objects_ids.
    apply NoDup_fst_map_to_list.
Qed.

Lemma get_tools_spec skip limit w :
  wp (get_tools skip limit) w (fun o w' =>
    same_data w w' /\
    (o = Return [] \/ o = Return (page skip limit (tools_by_id (tools (db w)))))).
Proof.
  unfold get_tools, query_tools_all. wp_steps; (split; [repeat split | auto]).
Qed.

Lemma get_tools_ok skip limit w :
  faults w = [] ->
  get_tools skip limit w =
  (Return (page skip limit (tools_by_id (tools (db w)))), w).
Proof.
  intros Hf. unfold get_tools, query_tools_all, try_except, bind.
  rewrite (external_ok _ _ Hf). reflexivity.
Qed.

Lemma page_sublist {A} skip limit (l : list A) : sublist (page skip limit l) l.
Proof.
  unfold page. etransitivity; [apply sublist_take | apply sublist_drop].
Qed.

(** X12.  [get_tools] never raises and never changes the database or the
    index; the list it returns holds only tools that are rows of the store,
    in strictly increasing order of id (so none twice), and is no longer than
    [limit]; when the query fails the list is empty. *)
Theorem tools_listing_is_sorted_and_bounded skip limit w :
  exists ts w',
    get_tools skip limit w = (Return ts, w') /\
    db w' = db w /\ points w' = points w /\
    Forall (persisted (db w)) ts /\
    StronglySorted (fun a b => t_id a < t_id b) ts /\
    (length ts <= Z.to_nat limit)%nat /\
    (forall fs, faults w = true :: fs -> ts = []).
Proof.
  destruct (wp_elim _ _ _ (get_tools_spec skip limit w))
    as (o & w' & Hrun & (Hd & _ & Hp) & Ho).
  assert (Hfail : forall fs, faults w = true :: fs ->
                             fst (get_tools skip limit w) = Return []).
  { intros fs Hf.
    unfold get_tools, query_tools_all, try_except, bind, external, bind, next_fault.
    rewrite Hf. reflexivity. }
  rewrite Hrun in Hfail. cbn [fst] in Hfail.
  destruct Ho as [-> | ->]; eexists _, w'; (split; [exact Hrun |]);
    (split; [exact Hd |]); (split; [exact Hp |]).
  - repeat split; [constructor | constructor | cbn; lia].
  - split; [| split; [| split]].
    + apply Forall_forall. intros t Ht.
      pose proof (elem_of_sublist _ _ _ Ht (page_sublist _ _ _)) as Hin.
      unfold tools_by_id in Hin. rewrite merge_sort_Permutation in Hin.
      apply elem_of_tool_objects in Hin. exact Hin.
    + eapply StronglySorted_sublist; [apply page_sublist | apply tools_by_id_sorted].
    + unfold page. rewrite length_take. lia.
    + intros fs Hf. specialize (Hfail fs Hf). injection Hfail as Hfail. exact Hfail.
Qed.

Lemma page_add {A} skip l1 l2 (l : list A) :
  0 <= skip -> 0 <= l1 -> 0 <= l2 ->
  page skip (l1 + l2) l = (page skip l1 l ++ page (skip + l1) l2 l)%list.
Proof.
  intros Hs H1 H2. unfold page.
  rewrite !Z2Nat.inj_add by lia.
  rewrite <- take_take_drop, drop_drop. reflexivity.
Qed.

(** X13.  With no failing call, consecutive pages of [get_tools] put end to
    end are the longer page, and a first page as long as the table lists
    every stored tool. *)
Theorem tools_pages_compose skip l1 l2 w :
  faults w = [] -> 0 <= skip -> 0 <= l1 -> 0 <= l2 ->
  (exists p1 p2,
      get_tools skip l1 w = (Return p1, w) /\
      get_tools (skip + l1) l2 w = (Return p2, w) /\
      get_tools skip (l1 + l2) w = (Return (p1 ++ p2)%list, w)) /\
  (exists every,
      get_tools 0 (Z.of_nat (size (tools (db w)))) w = (Return every, w) /\
      forall t, persisted (db w) t -> t ∈ every).
Proof.
  intros Hf Hs H1 H2. split.
  - eexists _, _. rewrite !(get_tools_ok _ _ _ Hf).
    split; [reflexivity |]. split; [reflexivity |].
    rewrite (page_add _ _ _ _ Hs H1 H2). reflexivity.
  - eexists. rewrite (get_tools_ok _ _ _ Hf). split; [reflexivity |].
    intros t Ht. unfold page. change (Z.to_nat 0) with 0%nat.
    rewrite drop_0, Nat2Z.id, take_ge.
    + unfold tools_by_id. rewrite merge_sort_Permutation.
      apply elem_of_tool_objects. exact Ht.
    + unfold tools_by_id, tool_objects.
      rewrite merge_sort_Permutation, length_fmap, length_map_to_list. lia.
Qed.

(** ** Further properties: reading one tool *)

Lemma persisted_inv s t :
  persisted s t ->
  exists r, tools s !! t_id t = Some r /\ t = Tool_of (t_id t) r.
Proof.
  unfold persisted. destruct (tools s !! t_id t) as [r |]; [| discriminate].
  intros [= H]. eauto.
Qed.

Lemma persisted_unique_name s t t' :
  names_unique s -> persisted s t -> persisted s t' ->
  t_name t = t_name t' -> t = t'.
Proof.
  intros Hu Ht Ht' Hname.
  destruct (persisted_inv _ _ Ht) as (r & Hr & Heq).
  destruct (persisted_inv _ _ Ht') as (r' & Hr' & Heq').
  assert (Hid : t_id t = t_id t').
  { apply (Hu _ _ r r' Hr Hr'). rewrite Heq, Heq' in Hname. exact Hname. }
  rewrite Hid in Hr. rewrite Hr' in Hr. injection Hr as ->.
  rewrite Heq, Heq', Hid. reflexivity.
Qed.

Lemma get_tool_by_name_spec name w :
  wp (get_tool_by_name name) w (fun o w' =>
    same_data w w' /\
    (o = Return None \/
     o = Return (head (filter (named name) (tool_objects (tools (db w))))))).
Proof.
  unfold get_tool_by_name, query_tool_by_name_first.
  wp_steps; (split; [repeat split | auto]).
Qed.

Lemma get_tool_by_name_ok name w :
  faults w = [] ->
  get_tool_by_name name w =
  (Return (head (filter (named name) (tool_objects (tools (db w))))), w).
Proof.
  intros Hf. unfold get_tool_by_name, query_tool_by_name_first, try_except, bind.
  rewrite (external_ok _ _ Hf). reflexivity.
Qed.

(** X14.  A tool [get_tool_by_name] returns is a row of the store and has
    the name asked for, whichever calls fail.  With no failing call over a
    store with unique names, it returns the stored tool of that name when
    there is one, and [None] when no stored tool has the name. *)
Theorem tool_lookup_by_name name w :
  (forall t w', get_tool_by_name name w = (Return (Some t), w') ->
                persisted (db w) t /\ t_name t = name) /\
  (faults w = [] -> names_unique (db w) ->
   forall t, persisted (db w) t -> t_name t = name ->
             get_tool_by_name name w = (Return (Some t), w)) /\
  (faults w = [] ->
   (forall t, persisted (db w) t -> t_name t <> name) ->
   get_tool_by_name name w = (Return None, w)).
Proof.
  assert (Hhead : forall t,
            head (filter (named name) (tool_objects (tools (db w)))) = Some t ->
            persisted (db w) t /\ t_name t = name).
  { intros t Hh. apply head_Some_elem_of in Hh.
    apply list_elem_of_filter in Hh as [Hn Hin].
    apply elem_of_tool_objects in Hin. auto. }
  split; [| split].
  - intros t w' Hrun.
    destruct (wp_run _ _ _ _ _ Hrun (get_tool_by_name_spec name w))
      as (_ & [[=] | [= Hh]]).
    apply Hhead. symmetry. exact Hh.
  - intros Hf Hu t Ht Hname. rewrite (get_tool_by_name_ok _ _ Hf).
    destruct (head (filter (named name) (tool_objects (tools (db w)))))
      as [t' |] eqn:Hh.
    + destruct (Hhead t' eq_refl) as [Ht' Hname'].
      rewrite (persisted_unique_name _ _ _ Hu Ht' Ht); [reflexivity | congruence].
    + exfalso. apply head_None in Hh.
      assert (Hin : t ∈ filter (named name) (tool_objects (tools (db w)))).
      { apply list_elem_of_filter. split; [exact Hname |].
        apply elem_of_tool_objects. exact Ht. }
      rewrite Hh in Hin. inversion Hin.
  - intros Hf Hnone. rewrite (get_tool_by_name_ok _ _ Hf).
    destruct (head (filter (named name) (tool_objects (tools (db w)))))
      as [t' |] eqn:Hh; [| reflexivity].
    destruct (Hhead t' eq_refl) as [Ht' Hname']. destruct (Hnone t' Ht' Hname').
Qed.

Lemma get_tool_found i w t w' :
  get_tool i w = (Return (Some t), w') -> t_id t = i /\ persisted (db w) t.
Proof.
  intros Hrun.
  destruct (wp_run _ _ _ _ _ Hrun (get_tool_spec i w)) as (_ & [[=] | [= Hh]]).
  destruct (tools (db w) !! i) as [r |] eqn:Hr; [| discriminate].
  injection Hh as ->. split; [reflexivity |].
  unfold persisted. cbn [Tool_of t_id]. rewrite Hr. reflexivity.
Qed.

(** X15.  The read endpoint never changes the database or the index.  What
    it returns is the stored row of the id asked for; for an id no tool has
    it raises 404 "Tool not found", whichever calls fail; and with no failing
    call it returns every stored tool. *)
Theorem read_tool_returns_stored_row i w :
  db (snd (read_tool i w)) = db w /\ points (snd (read_tool i w)) = points w /\
  (forall t, fst (read_tool i w) = Return t -> t_id t = i /\ persisted (db w) t) /\
  (tools (db w) !! i = None -> fst (read_tool i w) = Raise not_found) /\
  (faults w = [] -> forall r, tools (db w) !! i = Some r ->
                              fst (read_tool i w) = Return (Tool_of i r)).
Proof.
  split; [| split; [| split; [| split]]].
  - unfold read_tool, bind.
    pose proof (get_tool_spec i w) as H. unfold wp in H.
    destruct (get_tool i w) as [o w']. cbn [fst snd] in H.
    destruct H as [(Hd & _) [-> | ->]]; [exact Hd |].
    destruct (tools (db w) !! i); exact Hd.
  - unfold read_tool, bind.
    pose proof (get_tool_spec i w) as H. unfold wp in H.
    destruct (get_tool i w) as [o w']. cbn [fst snd] in H.
    destruct H as [(_ & _ & Hp) [-> | ->]]; [exact Hp |].
    destruct (tools (db w) !! i); exact Hp.
  - intros t. unfold read_tool, bind.
    destruct (get_tool i w) as [[[t' |] | e] w'] eqn:Hrun; cbn; try discriminate.
    intros [= ->]. exact (get_tool_found _ _ _ _ Hrun).
  - exact (read_tool_missing i w).
  - intros Hf r Hr. unfold read_tool, bind.
    rewrite (get_tool_ok _ _ Hf), Hr. reflexivity.
Qed.

(** ** Further properties: the candidates of a search *)

Lemma hits_of_points_bad l w :
  (exists p, p ∈ l /\ hit_of_point p = None) ->
  hits_of_points l w = (Raise KeyError, w).
Proof.
  induction l as [| a l IH]; intros (p & Hin & Hnone).
  - inversion Hin.
  - cbn [hits_of_points]. apply elem_of_cons in Hin as [<- | Hin].
    + rewrite Hnone. reflexivity.
    + destruct (hit_of_point a); [| reflexivity].
      unfold bind. rewrite IH by eauto. reflexivity.
Qed.

Lemma hits_of_points_good l w :
  (forall p, p ∈ l -> is_Some (hit_of_point p)) ->
  exists hits, hits_of_points l w = (Return hits, w) /\
               Forall2 (fun p h => hit_of_point p = Some h) l hits.
Proof.
  induction l as [| a l IH]; intros Hall.
  - exists []. split; [reflexivity | constructor].
  - destruct (Hall a) as [h Hh]; [left |].
    destruct IH as (hits & Hrun & Hfa); [intros p Hp; apply Hall; right; exact Hp |].
    exists (h :: hits). cbn [hits_of_points]. rewrite Hh. unfold bind. rewrite Hrun.
    split; [reflexivity | constructor; assumption].
Qed.

Lemma hit_of_point_None p :
  hit_of_point p = None <->
  p_tool_id (sp_payload p) = None \/ p_name (sp_payload p) = None \/
  p_description (sp_payload p) = None.
Proof.
  unfold hit_of_point.
  destruct (p_tool_id (sp_payload p)), (p_name (sp_payload p)),
           (p_description (sp_payload p)); split; intros H;
    try discriminate; try reflexivity; auto;
    destruct H as [H | [H | H]]; discriminate.
Qed.

Lemma search_tools_ok query limit w :
  faults w = [] ->
  search_tools query limit w =
  match hits_of_points (qdrant_search (points w) (encode query) limit score_threshold) w
  with
  | (Return hits, w1) =>
      (Return hits,
       put_log (log w1 ++ [ {| levelname := INFO;
                               message := "Semantic search for '" ++ query
                                          ++ "' returned "
                                          ++ str_Z (Z.of_nat (length hits))
                                          ++ " results" |} ]) w1)
  | (Raise e, w1) =>
      (Return [],
       put_log (log w1 ++ [ {| levelname := ERROR;
                               message := "Error searching tools: " ++ str_exn e |} ])
               w1)
  end.
Proof.
  intros Hf. unfold search_tools, get_embedding, client_search, try_except, bind.
  rewrite (external_ok _ _ Hf). cbn [ret]. rewrite (external_ok _ _ Hf).
  cbn [get_world ret].
  destruct (hits_of_points _ w) as [[hits | e] w1]; reflexivity.
Qed.

Lemma semantic_search_of_no_candidates query w w1 :
  search_tools (sq_query query) (sq_limit query) w = (Return [], w1) ->
  exists w', semantic_search query w =
             (Return {| sr_query := sq_query query; sr_results := [] |}, w').
Proof.
  intros Hs. unfold semantic_search, bind. rewrite Hs. cbn [valid_results_of ret].
  pose proof (create_search_history_total (sq_query query) [] w1) as Ht.
  unfold wp in Ht. destruct (create_search_history (sq_query query) [] w1) as [o w'].
  cbn [fst] in Ht. destruct Ht as [r ->]. eauto.
Qed.

(** X16.  One malformed point blanks the whole search: when the embedding
    and the Qdrant call succeed but some returned point lacks "tool_id",
    "name" or "description" in its payload, [search_tools] returns no
    candidate at all, and Search answers with an empty result list, however
    many well-formed points Qdrant returned. *)
Theorem search_blanked_by_one_bad_payload query w :
  faults w = [] ->
  (exists p,
      In p (qdrant_search (points w) (encode (sq_query query)) (sq_limit query)
                          score_threshold) /\
      (p_tool_id (sp_payload p) = None \/ p_name (sp_payload p) = None \/
       p_description (sp_payload p) = None)) ->
  (exists w1, search_tools (sq_query query) (sq_limit query) w = (Return [], w1)) /\
  exists w', semantic_search query w =
             (Return {| sr_query := sq_query query; sr_results := [] |}, w').
Proof.
  intros Hf (p & Hin & Hbad).
  assert (Hs : exists w1,
             search_tools (sq_query query) (sq_limit query) w = (Return [], w1)).
  { rewrite (search_tools_ok _ _ _ Hf). rewrite hits_of_points_bad; [eauto |].
    exists p. split; [apply list_elem_of_In; exact Hin |].
    apply hit_of_point_None. exact Hbad. }
  split; [exact Hs |]. destruct Hs as [w1 Hs].
  exact (semantic_search_of_no_candidates _ _ _ Hs).
Qed.

(** X17.  With no failing call and complete payloads, [search_tools] returns
    one dictionary per point Qdrant returned, in Qdrant's order: its id is the
    payload's "tool_id", its name and description are the payload's, its tags
    are the payload's or [[]] when the payload has none, and its score is the
    point's. *)
Theorem search_tools_maps_points_in_order query limit w :
  faults w = [] ->
  (forall p, In p (qdrant_search (points w) (encode query) limit score_threshold) ->
             is_Some (p_tool_id (sp_payload p)) /\ is_Some (p_name (sp_payload p)) /\
             is_Some (p_description (sp_payload p))) ->
  exists hits w',
    search_tools query limit w = (Return hits, w') /\
    Forall2 (fun p h =>
               p_tool_id (sp_payload p) = Some (hit_id h) /\
               p_name (sp_payload p) = Some (hit_name h) /\
               p_description (sp_payload p) = Some (hit_description h) /\
               hit_tags h = default [] (p_tags (sp_payload p)) /\
               hit_score h = sp_score p)
            (qdrant_search (points w) (encode query) limit score_threshold) hits.
Proof.
  intros Hf Hall. rewrite (search_tools_ok _ _ _ Hf).
  destruct (hits_of_points_good
              (qdrant_search (points w) (encode query) limit score_threshold) w)
    as (hits & -> & Hfa).
  { intros p Hp. apply list_elem_of_In in Hp.
    destruct (Hall p Hp) as ([i Hi] & [n Hn] & [d Hd]).
    unfold hit_of_point. rewrite Hi, Hn, Hd. eauto. }
  eexists hits, _. split; [reflexivity |].
  eapply Forall2_impl; [exact Hfa |]. intros p h. unfold hit_of_point.
  destruct (p_tool_id (sp_payload p)), (p_name (sp_payload p)),
           (p_description (sp_payload p)); try discriminate.
  intros [= <-]. cbn. auto.
Qed.

(** ** Further properties: what a search writes *)

Lemma flush_add_history_row s query results :
  flush [PAddHistory query results] s =
  if decide (is_Some (search_history s !! search_history_id_seq s))
  then (Raise IntegrityError,
        with_history s (search_history s) (search_history_id_seq s + 1))
  else (Return [search_history_id_seq s],
        with_history s
          (<[search_history_id_seq s :=
               {| c_query := query; c_results := results; c_recorded_at := clock s |}]>
             (search_history s))
          (search_history_id_seq s + 1)).
Proof.
  cbn [flush flush_op]. destruct (decide _); reflexivity.
Qed.

Lemma create_search_history_steps query results w :
  session w = [] ->
  wp (create_search_history query results) w (fun o w' =>
    (exists r, o = Return r) /\
    tools (db w') = tools (db w) /\ tools_id_seq (db w') = tools_id_seq (db w) /\
    points w' = points w /\
    history_written (db w) query results (search_history (db w'))).
Proof.
  intros Hs. unfold create_search_history, history_written. wp_step. wp_step.
  eapply wp_mono; [apply valid_results_of_spec |]. cbn beta.
  intros o w1 (valid & -> & (Hd & Hs1 & Hp) & Hsub & Hall).
  wp_steps. apply wp_db_commit; wsimpl.
  - intros fs. wp_steps. rewrite Hd, Hp. eauto 10.
  - intros fs ids s'. rewrite Hs1, Hs. cbn [app]. rewrite flush_add_history_row.
    destruct (decide _) as [Hbad | Hfree]; [discriminate |].
    intros [= <- <-]. cbn [inserted]. wp_steps.
    assert (Hnone : search_history (db w) !! search_history_id_seq (db w) = None).
    { rewrite <- Hd.
      destruct (search_history (db w1) !! search_history_id_seq (db w1)) eqn:E;
        [| reflexivity].
      exfalso. apply Hfree. eauto. }
    assert (Hw : history_written (db w) query results
                   (<[search_history_id_seq (db w1) :=
                        {| c_query := query; c_results := valid;
                           c_recorded_at := clock (db w1) |}]>
                      (search_history (db w1)))).
    { right. split; [exact Hnone |]. exists valid. rewrite Hd. auto. }
    unfold db_refresh_history. wp_steps; cbn [tick with_history tools tools_id_seq
                                               search_history].
    + rewrite lookup_insert_eq. wp_steps.
      cbn [tick with_history tools tools_id_seq search_history].
      rewrite Hp. split; [eauto |]. rewrite Hd at 1 2. auto.
    + rewrite Hp. split; [eauto |]. rewrite Hd at 1 2. auto.
  - intros fs e s'. rewrite Hs1, Hs. cbn [app]. rewrite flush_add_history_row.
    destruct (decide _); [| discriminate].
    intros [= <- <-]. wp_steps. cbn. rewrite Hd, Hp. eauto 10.
Qed.

(** X18.  Search writes nothing but history.  On a fresh session, whichever
    calls fail, Search returns a response, leaves the table of tools, its
    sequence and the Qdrant collection as they were, and either leaves the
    history as it was or adds one row under the next history id, for this
    query, whose results are a sub-list of the response's results. *)
Theorem search_writes_only_history query w :
  session w = [] ->
  exists resp w',
    semantic_search query w = (Return resp, w') /\
    tools (db w') = tools (db w) /\
    tools_id_seq (db w') = tools_id_seq (db w) /\
    points w' = points w /\
    (search_history (db w') = search_history (db w) \/
     (search_history (db w) !! search_history_id_seq (db w) = None /\
      exists stored,
        sublist stored (sr_results resp) /\
        search_history (db w') =
        <[search_history_id_seq (db w) :=
            {| c_query := sq_query query; c_results := stored;
               c_recorded_at := clock (db w) |}]> (search_history (db w)))).
Proof.
  intros Hs.
  assert (H : wp (semantic_search query) w (fun o w' =>
            exists resp, o = Return resp /\
              tools (db w') = tools (db w) /\
              tools_id_seq (db w') = tools_id_seq (db w) /\
              points w' = points w /\
              history_written (db w) (sq_query query) (sr_results resp)
                              (search_history (db w')))).
  { unfold semantic_search. wp_step.
    eapply wp_mono; [apply search_tools_spec |]. cbn beta.
    intros o w1 ((Hd1 & Hs1 & Hp1) & hits & -> & _).
    wp_step. eapply wp_mono; [apply valid_results_of_spec |]. cbn beta.
    intros o w2 (valid & -> & (Hd2 & Hs2 & Hp2) & _ & _).
    wp_step. eapply wp_mono.
    { apply create_search_history_steps. rewrite Hs2, Hs1. exact Hs. }
    cbn beta. intros o w3 ((r & ->) & Ht & Hq & Hp & Hw).
    wp_steps. eexists. split; [reflexivity |]. cbn [sr_results].
    rewrite Ht, Hq, Hp, Hp2, Hp1, Hd2, Hd1. repeat split.
    rewrite Hd2, Hd1 in Hw. exact Hw. }
  destruct (wp_elim _ _ _ H) as (o & w' & Hrun & resp & -> & Ht & Hq & Hp & Hw).
  exists resp, w'. split; [exact Hrun |]. repeat split; auto.
  destruct Hw as [Hsame | (Hnone & stored & Hsub & _ & Hm)]; [left; exact Hsame |].
  right. split; [exact Hnone |]. exists stored. auto.
Qed.

Lemma filter_filter_same {A} (f : A -> bool) (l : list A) :
  List.filter f (List.filter f l) = List.filter f l.
Proof.
  induction l as [| x l IH]; [reflexivity |]. cbn [List.filter].
  destruct (f x) eqn:Hx; [| exact IH]. cbn [List.filter]. rewrite Hx, IH. reflexivity.
Qed.

Lemma search_tools_ok_frame query limit w :
  faults w = [] ->
  exists hits w1,
    search_tools query limit w = (Return hits, w1) /\
    faults w1 = [] /\ same_data w w1.
Proof.
  intros Hf. rewrite (search_tools_ok _ _ _ Hf).
  pose proof (hits_of_points_spec
                (qdrant_search (points w) (encode query) limit score_threshold) w) as H.
  unfold wp in H. destruct (hits_of_points _ w) as [o w1]. cbn [fst snd] in H.
  destruct H as [-> [-> | (hits & -> & _)]]; eexists _, _;
    (split; [reflexivity |]); (split; [exact Hf | repeat split]).
Qed.

Lemma create_search_history_ok query results w :
  faults w = [] -> session w = [] ->
  search_history (db w) !! search_history_id_seq (db w) = None ->
  wp (create_search_history query results) w (fun o w' =>
    (exists h, o = Return (Some h)) /\
    search_history (db w') =
    <[search_history_id_seq (db w) :=
        {| c_query := query; c_results := List.filter (live_hit (db w)) results;
           c_recorded_at := clock (db w) |}]> (search_history (db w))).
Proof.
  intros Hf Hs Hnone. unfold create_search_history, db_commit, db_refresh_history.
  wp_step. wp_step. unfold wp at 1. rewrite (valid_results_of_ok _ _ Hf).
  cbn [fst snd]. wp_steps_ok Hf. rewrite Hs. cbn [app].
  rewrite flush_add_history_row.
  destruct (decide _) as [[r Hr] | _]; [congruence |].
  wp_steps_ok Hf. cbn [inserted]. wp_steps_ok Hf.
  cbn [tick with_history search_history]. rewrite lookup_insert_eq.
  wp_steps_ok Hf. eauto.
Qed.

(** X19.  With no failing call, on a fresh session whose next history id is
    free, Search records exactly what it returns: the history gains one row,
    under the next id, holding the query, the result list of the response and
    the time of the store, and the response holds the candidates of
    [search_tools] whose tool the store has, in their order. *)
Theorem search_records_its_response query w :
  faults w = [] -> session w = [] ->
  search_history (db w) !! search_history_id_seq (db w) = None ->
  exists hits w1 resp w',
    search_tools (sq_query query) (sq_limit query) w = (Return hits, w1) /\
    semantic_search query w = (Return resp, w') /\
    sr_results resp = List.filter (live_hit (db w)) hits /\
    search_history (db w') =
    <[search_history_id_seq (db w) :=
        {| c_query := sq_query query; c_results := sr_results resp;
           c_recorded_at := clock (db w) |}]> (search_history (db w)).
Proof.
  intros Hf Hs Hnone.
  destruct (search_tools_ok_frame (sq_query query) (sq_limit query) w Hf)
    as (hits & w1 & Hrun1 & Hf1 & Hd1 & Hs1 & _).
  assert (Hnone1 : search_history (db w1) !! search_history_id_seq (db w1) = None)
    by (rewrite Hd1; exact Hnone).
  assert (Hs1' : session w1 = []) by (rewrite Hs1; exact Hs).
  destruct (wp_elim _ _ _
              (create_search_history_ok (sq_query query)
                 (List.filter (live_hit (db w1)) hits) w1 Hf1 Hs1' Hnone1))
    as (o & w' & Hrun3 & [h ->] & Hh).
  exists hits, w1, {| sr_query := sq_query query;
                      sr_results := List.filter (live_hit (db w)) hits |}, w'.
  split; [exact Hrun1 |]. split; [| split; [reflexivity |]].
  - unfold semantic_search, bind.
    rewrite Hrun1, (valid_results_of_ok _ _ Hf1), Hrun3, Hd1. reflexivity.
  - rewrite Hh, filter_filter_same, Hd1. reflexivity.
Qed.

(** ** Further properties: the history listing *)

Lemma history_page_sorted w skip limit :
  StronglySorted newer (history_page w skip limit).
Proof.
  unfold history_page, newest_first.
  eapply StronglySorted_sublist; [apply page_sublist |].
  apply (StronglySorted_merge_sort newer).
Qed.

Lemma views_sorted s hs items :
  Forall2 (view_of s) hs items ->
  StronglySorted newer hs -> StronglySorted newer items.
Proof.
  induction 1 as [| h it hs items Hv Hall IH]; intros Hs; [constructor |].
  apply StronglySorted_inv in Hs as [Hs Hh]. constructor; [auto |].
  apply Forall_forall. intros it' Hit'.
  destruct (Forall2_elem_r _ _ _ _ Hall Hit') as (h' & Hh' & _ & _ & Hc' & _).
  destruct Hv as (_ & _ & Hc & _).
  rewrite Forall_forall in Hh. specialize (Hh h' Hh').
  unfold newer in *. rewrite Hc, Hc'. exact Hh.
Qed.

(** X20.  [get_search_history] never raises; the list it returns is no
    longer than [limit] and is ordered newest first, whichever calls fail. *)
Theorem history_listing_newest_first skip limit w :
  exists items w',
    get_search_history skip limit w = (Return items, w') /\
    (length items <= Z.to_nat limit)%nat /\
    StronglySorted (fun a b => h_created_at b <= h_created_at a) items.
Proof.
  destruct (wp_elim _ _ _ (get_search_history_spec skip limit w))
    as (o & w' & Hrun & _ & _ & items & -> & Hitems).
  exists items, w'. split; [exact Hrun |].
  destruct Hitems as [-> | Hall].
  - split; [cbn; lia | constructor].
  - split.
    + rewrite <- (Forall2_length _ _ _ Hall). unfold history_page, page.
      rewrite length_take. lia.
    + exact (views_sorted _ _ _ Hall (history_page_sorted w skip limit)).
Qed.

(** ** Further properties: startup *)

Lemma reset_sequences_spec w :
  wp reset_sequences w (fun o w' =>
    o = Return tt /\ points w' = points w /\
    tools (db w') = tools (db w) /\ search_history (db w') = search_history (db w) /\
    ((tools_id_seq (db w') = 1 /\ search_history_id_seq (db w') = 1) \/
     (tools_id_seq (db w') = tools_id_seq (db w) /\
      search_history_id_seq (db w') = search_history_id_seq (db w)))).
Proof.
  unfold reset_sequences. wp_steps; cbn; auto 10.
Qed.

Lemma init_db_spec w :
  wp init_db w (fun o w' =>
    points w' = points w /\
    (o = Raise SQLAlchemyError \/
     (o = Return tt /\ tools (db w') = ∅ /\ search_history (db w') = ∅ /\
      tools_id_seq (db w') = 1 /\ search_history_id_seq (db w') = 1))).
Proof.
  unfold init_db. wp_steps; auto.
  eapply wp_mono; [apply reset_sequences_spec |]. cbn beta. wsimpl.
  intros o w' (-> & Hp & Ht & Hh & Hq). split; [exact Hp |]. right.
  rewrite Ht, Hh. cbn. split; [reflexivity |]. split; [reflexivity |].
  split; [reflexivity |]. destruct Hq as [[-> ->] | [-> ->]]; auto.
Qed.

Lemma search_over_no_tools query w :
  tools (db w) = ∅ ->
  exists w', semantic_search query w =
             (Return {| sr_query := sq_query query; sr_results := [] |}, w').
Proof.
  intros Hempty.
  destruct (wp_elim _ _ _ (semantic_search_spec query w))
    as (o & w' & Hrun & hits & valid & -> & _ & _ & Hall).
  exists w'. rewrite Hrun. destruct valid as [| r valid]; [reflexivity |].
  apply Forall_cons in Hall as [Hr _].
  apply live_hit_inv in Hr as (z & _ & _ & [row Hrow]).
  rewrite Hempty, lookup_empty in Hrow. discriminate.
Qed.

(** X21.  Startup re-creates the tables: when [lifespan]'s startup returns,
    the tables of tools and of history are empty and both sequences are at 1,
    whatever the database held, while the Qdrant collection is exactly what it
    was; until a tool is created every Search then returns an empty result
    list, whatever the collection still holds.  The only way startup fails is
    by raising the database error. *)
Theorem startup_empties_store_not_index w :
  exists o w',
    lifespan_startup w = (o, w') /\
    points w' = points w /\
    (o = Return tt \/ o = Raise SQLAlchemyError) /\
    (o = Return tt ->
     tools (db w') = ∅ /\ search_history (db w') = ∅ /\
     tools_id_seq (db w') = 1 /\ search_history_id_seq (db w') = 1 /\
     forall query w2, tools (db w2) = tools (db w') ->
       exists w3, semantic_search query w2 =
                  (Return {| sr_query := sq_query query; sr_results := [] |}, w3)).
Proof.
  assert (H : wp lifespan_startup w (fun o w' =>
            points w' = points w /\
            (o = Raise SQLAlchemyError \/
             (o = Return tt /\ tools (db w') = ∅ /\ search_history (db w') = ∅ /\
              tools_id_seq (db w') = 1 /\ search_history_id_seq (db w') = 1)))).
  { unfold lifespan_startup. wp_steps.
    eapply wp_mono; [apply init_db_spec |]. cbn beta. wsimpl.
    intros o w' (Hp & [-> | (-> & Ht & Hh & Hq)]); [auto |].
    wp_steps. split; [exact Hp |]. right. auto. }
  destruct (wp_elim _ _ _ H) as (o & w' & Hrun & Hp & Ho).
  exists o, w'. split; [exact Hrun |]. split; [exact Hp |].
  destruct Ho as [-> | (-> & Ht & Hh & Hq1 & Hq2)].
  - split; [right; reflexivity | discriminate].
  - split; [left; reflexivity |]. intros _. repeat split; auto.
    intros query w2 Hw2. apply search_over_no_tools. rewrite Hw2. exact Ht.
Qed.

(** ** Further properties: Create then Delete *)

(** X22.  With no failing call, on a fresh session, Create followed by
    Delete of the created id gives back the table of tools and (when no point
    was stored under that id) the Qdrant collection as they were before the
    Create; only the sequence has moved on, so the id is not given out again. *)
Theorem create_then_delete_restores tool w :
  faults w = [] -> session w = [] ->
  ~ name_taken (db w) (tb_name tool) ->
  tools (db w) !! tools_id_seq (db w) = None ->
  points w !! tools_id_seq (db w) = None ->
  exists t w1 w2,
    create_tool tool w = (Return (Some t), w1) /\
    t_id t = tools_id_seq (db w) /\
    delete_tool_db (t_id t) w1 = (Return true, w2) /\
    tools (db w2) = tools (db w) /\
    points w2 = points w /\
    tools_id_seq (db w2) = tools_id_seq (db w) + 1.
Proof.
  intros Hf Hs Hname Hseq Hpt.
  destruct (wp_elim _ _ _ (create_tool_ok tool w Hf Hs Hname Hseq))
    as (o & w1 & Hrun1 & -> & Hf1 & Hs1 & Ht1 & Hq1 & _ & Hp1).
  assert (Hsome : is_Some (tools (db w1) !! tools_id_seq (db w)))
    by (rewrite Ht1, lookup_insert_eq; eauto).
  destruct (wp_elim _ _ _ (delete_tool_db_ok (tools_id_seq (db w)) w1 Hf1 Hs1 Hsome))
    as (o & w2 & Hrun2 & -> & Hp2).
  destruct (wp_run _ _ _ _ _ Hrun2 (delete_tool_db_steps (tools_id_seq (db w)) w1 Hs1))
    as (_ & Hq2 & [(Hfalse & _) | (_ & _ & Ht2 & _)]); [discriminate |].
  eexists _, w1, w2. split; [exact Hrun1 |]. split; [reflexivity |].
  cbn [Tool_of t_id]. split; [exact Hrun2 |]. split; [| split].
  - rewrite Ht2, Ht1. apply delete_insert_id. exact Hseq.
  - rewrite Hp2, Hp1. destruct (tb_tags tool).
    + apply delete_insert_id. exact Hpt.
    + apply delete_id. exact Hpt.
  - rewrite Hq2, Hq1. reflexivity.
Qed.

(** ** Further properties: degraded writes and stale payloads *)

(** X23.  When the first query of Delete or of Update fails for a reason of
    the database, the endpoints answer 404 "Tool not found" and 404 "Tool
    not found or name already exists", whether or not the tool exists, and
    change neither the database nor the index. *)
Theorem database_failure_reported_as_not_found i tool w fs :
  faults w = true :: fs ->
  (fst (serve (delete_tool_endpoint i) w) = HTTP_Error 404 "Tool not found" /\
   db (snd (serve (delete_tool_endpoint i) w)) = db w /\
   points (snd (serve (delete_tool_endpoint i) w)) = points w) /\
  (fst (serve (main_update_tool i tool) w) =
     HTTP_Error 404 "Tool not found or name already exists" /\
   db (snd (serve (main_update_tool i tool) w)) = db w /\
   points (snd (serve (main_update_tool i tool) w)) = points w).
Proof.
  destruct w as [d s p f l]. cbn [faults]. intros ->.
  repeat split; reflexivity.
Qed.

(** X24.  Delete survives a failure of the index: when the query and the
    commit succeed and Qdrant's delete then raises, [delete_tool_db] still
    returns [True] and the endpoint still answers "Tool deleted
    successfully"; the row has left the store and the point stays in the
    collection. *)
Theorem delete_survives_index_failure i w fs row :
  faults w = false :: false :: true :: fs -> session w = [] ->
  tools (db w) !! i = Some row ->
  exists w',
    delete_tool_db i w = (Return true, w') /\
    delete_tool_endpoint i w = (Return "Tool deleted successfully", w') /\
    tools (db w') = delete i (tools (db w)) /\
    points w' = points w.
Proof.
  intros Hf Hs Hrow.
  assert (H : wp (delete_tool_db i) w (fun o w' =>
            o = Return true /\ tools (db w') = delete i (tools (db w)) /\
            points w' = points w)).
  { unfold delete_tool_db, query_tool_first, db_commit, delete_tool, client_delete.
    wp_steps_next. rewrite Hrow. cbn [fmap option_fmap option_map Tool_of t_id].
    wp_steps_next. rewrite Hs. cbn [app flush flush_op]. wp_steps_next.
    cbn [negb]. wp_steps_next. auto. }
  destruct (wp_elim _ _ _ H) as (o & w' & Hrun & -> & Ht & Hp).
  exists w'. split; [exact Hrun |]. split; [| auto].
  unfold delete_tool_endpoint, bind. rewrite Hrun. reflexivity.
Qed.

Lemma flush_set_tool_fields s i tool row :
  tools s !! i = Some row ->
  ~ map_Exists (name_conflict (tb_name tool) (Some i)) (tools s) ->
  exists s' row',
    flush [PSetTool i tool] s = (Return [], s') /\
    tools s' !! i = Some row' /\ c_fields row' = tool.
Proof.
  intros Hrow Hfree. rewrite (flush_set_tool _ _ _ _ Hrow).
  destruct (decide (c_fields row = tool)) as [Heq | Hne].
  - exists s, row. auto.
  - destruct (decide _) as [Hc | _]; [contradiction |].
    eexists _, (updated_row s row tool). split; [reflexivity |].
    cbn. rewrite lookup_insert_eq. auto.
Qed.

(** X25.  Update survives a failure of the index, and leaves it stale: when
    the query, the commit and the refresh succeed and the embedding then
    raises, [update_tool] still returns the tool with the new fields, the
    store holds it, and the Qdrant collection is exactly as before, so the
    point of that id still carries the old payload and vector. *)
Theorem update_survives_index_failure i tool w fs row :
  faults w = false :: false :: false :: true :: fs -> session w = [] ->
  tools (db w) !! i = Some row ->
  ~ map_Exists (name_conflict (tb_name tool) (Some i)) (tools (db w)) ->
  is_Some (tb_tags tool) ->
  exists t w',
    update_tool i tool w = (Return (Some t), w') /\
    t_id t = i /\ t_name t = tb_name tool /\ t_description t = tb_description tool /\
    t_tags t = tb_tags tool /\
    persisted (db w') t /\
    points w' = points w.
Proof.
  intros Hf Hs Hrow Hfree [l Hl].
  assert (H : wp (update_tool i tool) w (fun o w' =>
            exists row', o = Return (Some (Tool_of i row')) /\
                         c_fields row' = tool /\
                         tools (db w') !! i = Some row' /\ points w' = points w)).
  { destruct (flush_set_tool_fields _ _ _ _ Hrow Hfree)
      as (s' & row' & Hflush & Hrow' & Hfields).
    unfold update_tool, query_tool_first, db_commit, db_refresh_tool.
    wp_steps_next. rewrite Hrow. cbn [fmap option_fmap option_map Tool_of t_id].
    wp_steps_next. rewrite Hs. cbn [app]. rewrite Hflush.
    wp_steps_next. cbn [tick tools]. rewrite Hrow'.
    wp_steps_next. unfold upsert_tool, get_embedding.
    cbn [Tool_of t_id t_name t_description t_tags]. rewrite Hfields, Hl.
    cbn [join_tags]. wp_steps_next. cbn [negb]. wp_steps_next.
    exists row'. auto. }
  destruct (wp_elim _ _ _ H) as (o & w' & Hrun & row' & -> & Hfields & Hrow' & Hp).
  exists (Tool_of i row'), w'. split; [exact Hrun |].
  cbn [Tool_of t_id t_name t_description t_tags]. rewrite Hfields.
  repeat split; auto.
  unfold persisted. cbn [Tool_of t_id]. rewrite Hrow'. reflexivity.
Qed.

(** X26.  Search results are built from the index, not from the record
    store: every result of every Search is the dictionary of a point Qdrant
    returned for that query, with that point's payload id, name and
    description and its score; the store only decides whether the result is
    kept. *)
Theorem search_results_carry_index_payload query w :
  exists resp w',
    semantic_search query w = (Return resp, w') /\
    Forall (fun r =>
              exists p,
                In p (qdrant_search (points w) (encode (sq_query query))
                                    (sq_limit query) score_threshold) /\
                p_tool_id (sp_payload p) = Some (hit_id r) /\
                p_name (sp_payload p) = Some (hit_name r) /\
                p_description (sp_payload p) = Some (hit_description r) /\
                hit_score r = sp_score p)
           (sr_results resp).
Proof.
  apply wp_returns.
  eapply wp_mono; [apply semantic_search_spec |]. cbn beta.
  intros o _ (hits & valid & -> & Hc & Hsub & _).
  eexists. split; [reflexivity |]. cbn [sr_results].
  eapply Forall_sublist; [exact Hsub |].
  destruct Hc as [-> | Hall]; [constructor |].
  apply Forall_forall. intros r Hr.
  destruct (Forall2_elem_r _ _ _ _ Hall Hr) as (p & Hp & Hhit).
  exists p. split; [apply list_elem_of_In; exact Hp |].
  revert Hhit. unfold hit_of_point.
  destruct (p_tool_id (sp_payload p)), (p_name (sp_payload p)),
           (p_description (sp_payload p)); try discriminate.
  intros [= <-]. cbn. auto.
Qed.

(** ** Deletion across requests *)













(** ** Re-indexing *)




End App.

(** ** The reference search honours the contract *)

Lemma ref_search_honours_threshold : honours_threshold ref_search.
Proof.
  intros pts v limit thr p Hin. apply list_elem_of_In in Hin.
  unfold ref_search in Hin.
  pose proof (elem_of_sublist _ _ _ Hin (sublist_take _ _)) as Hin'.
  rewrite merge_sort_Permutation in Hin'.
  apply list_elem_of_filter in Hin' as [Habove _].
  apply Qle_bool_iff. exact Habove.
Qed.

Lemma ref_search_honours_limit : honours_limit ref_search.
Proof.
  intros pts v limit thr Hpos. unfold ref_search. rewrite length_take. lia.
Qed.

(** ** Concrete runs *)



(** Create with the embedding provider down after the commit. *)
Lemma create_survives_index_failure_witness :
  exists w3,
    create_tool ref_encode hammer (world_of empty_store ∅ [false; false; true])
    = (Return (Some (Tool_of 1 (row_of hammer 0))), w3) /\
    main_create_tool ref_encode hammer (world_of empty_store ∅ [false; false; true])
    = (Return (Tool_of 1 (row_of hammer 0)), w3) /\
    persisted (db w3) (Tool_of 1 (row_of hammer 0)).
Proof.
  destruct (create_survives_index_failure ref_encode hammer
              (world_of empty_store ∅ [false; false; true])
              (Tool_of 1 (row_of hammer 0))
              (snd (create_tool_insert hammer
                      (world_of empty_store ∅ [false; false; true])))
              (snd (upsert_tool ref_encode 1 "hammer" "drives nails" (Some ["tool"])
                      (snd (create_tool_insert hammer
                              (world_of empty_store ∅ [false; false; true]))))))
    as (w3 & Hcreate & Hmain & Hper & _).
  - vm_compute. reflexivity.
  - vm_compute. reflexivity.
  - exists w3. auto.
Defined.

(** C4 as stated fails: an unknown id and a name taken by another tool give
    the caller the very same response. *)
Lemma update_refusals_indistinguishable :
  missing toolbox 3 /\
  name_collides toolbox 2 hammer /\
  fst (serve (main_update_tool ref_encode 3 hammer) (world_of toolbox toolbox_points []))
  = HTTP_Error 404 "Tool not found or name already exists" /\
  fst (serve (main_update_tool ref_encode 2 hammer) (world_of toolbox toolbox_points []))
  = HTTP_Error 404 "Tool not found or name already exists".
Proof.
  split; [reflexivity |]. split.
  - split; [eexists; reflexivity |].
    exists 1, (row_of hammer 0). split; [reflexivity |].
    split; [reflexivity | discriminate].
  - split; vm_compute; reflexivity.
Qed.

Lemma update_refusals_share_one_error_witness :
  fst (main_update_tool ref_encode 2 hammer (world_of toolbox toolbox_points []))
  = Raise update_refused.
Proof.
  apply (update_refusals_share_one_error ref_encode 2 hammer
           (world_of toolbox toolbox_points [])).
  - reflexivity.
  - apply names_unique_NoDup.
    apply (bool_decide_unpack (NoDup _)). vm_compute. exact I.
  - right. split; [eexists; reflexivity |].
    exists 1, (row_of hammer 0). split; [reflexivity |].
    split; [reflexivity | discriminate].
Defined.

Lemma search_results_above_floor_witness :
  exists resp w',
    semantic_search ref_encode ref_search nails_query
      (world_of toolbox toolbox_points []) = (Return resp, w') /\
    Forall (fun r => (3 # 10 <= hit_score r)%Q) (sr_results resp).
Proof.
  apply (search_results_above_floor ref_encode ref_search nails_query
           (world_of toolbox toolbox_points [])).
  exact ref_search_honours_threshold.
Defined.

Lemma search_results_at_most_limit_witness :
  exists resp w' hits,
    semantic_search ref_encode ref_search nails_query
      (world_of toolbox toolbox_points []) = (Return resp, w') /\
    candidates ref_encode ref_search (world_of toolbox toolbox_points [])
               "tool for nails" 10 hits /\
    sublist (sr_results resp) hits /\
    Z.of_nat (length (sr_results resp)) <= 10.
Proof.
  apply (search_results_at_most_limit ref_encode ref_search nails_query
           (world_of toolbox toolbox_points [])).
  - exact ref_search_honours_limit.
  - unfold SearchQuery_valid. cbn. lia.
Defined.

(** The recorded search for "tool for nails" is listed without the deleted
    hammer, and the stored row still has both results. *)
Lemma history_filtered_on_read_witness :
  exists w',
    get_search_history 0 10 (world_of toolbox_without_hammer toolbox_points [])
    = (Return [ {| h_id := 1; h_query := "tool for nails";
                   h_results := [saw_hit]; h_created_at := 2 |} ], w') /\
    c_results <$> search_history (db w') !! 1 = Some [saw_hit; hammer_hit].
Proof.
  destruct (history_filtered_on_read 1 0 10
              (world_of toolbox_without_hammer toolbox_points []))
    as [(items & w' & Hrun & Hd & _ & Hok) _].
  - reflexivity.
  - exists w'. rewrite Hrun, (Hok eq_refl), Hd. split; reflexivity.
Defined.

(** The commit of the history record fails; the response is the same. *)
Lemma search_survives_history_failure_witness :
  semantic_search ref_encode ref_search nails_query
    (world_of toolbox toolbox_points [false; false; false; false; false; false; true])
  = (Return {| sr_query := "tool for nails"; sr_results := [saw_hit; hammer_hit] |},
     snd (create_search_history "tool for nails" [saw_hit; hammer_hit]
       (snd (valid_results_of [saw_hit; hammer_hit]
         (snd (search_tools ref_encode ref_search "tool for nails" 10
           (world_of toolbox toolbox_points
              [false; false; false; false; false; false; true]))))))).
Proof.
  apply (search_survives_history_failure ref_encode ref_search nails_query
           (world_of toolbox toolbox_points
              [false; false; false; false; false; false; true])
           [saw_hit; hammer_hit]
           (snd (search_tools ref_encode ref_search "tool for nails" 10
              (world_of toolbox toolbox_points
                 [false; false; false; false; false; false; true])))
           [saw_hit; hammer_hit]
           (snd (valid_results_of [saw_hit; hammer_hit]
              (snd (search_tools ref_encode ref_search "tool for nails" 10
                 (world_of toolbox toolbox_points
                    [false; false; false; false; false; false; true])))))).
  - vm_compute. reflexivity.
  - vm_compute. reflexivity.
  - vm_compute. reflexivity.
Defined.

(** A tool stored and indexed under the id [0] is still dropped everywhere. *)
Lemma falsy_id_always_dropped_witness :
  is_Some (tools zero_store !! 0) /\
  fst (semantic_search ref_encode ref_search nails_query
         (world_of zero_store zero_points []))
  = Return {| sr_query := "tool for nails"; sr_results := [] |} /\
  exists resp w',
    semantic_search ref_encode ref_search nails_query
      (world_of zero_store zero_points []) = (Return resp, w') /\
    Forall (fun r => truthy (hit_id r) = true) (sr_results resp).
Proof.
  split; [eexists; reflexivity |]. split; [vm_compute; reflexivity |].
  apply (falsy_id_always_dropped ref_encode ref_search
           (world_of zero_store zero_points [])).
Defined.

(** The scenario of the specification: create "alpha", create it again,
    rename it, delete it, search for it. *)
Example scenario_alpha :
  let alpha := {| tb_name := "alpha"; tb_description := "desc";
                  tb_tags := Some []; tb_tool_metadata := None |} in
  let other := {| tb_name := "alpha"; tb_description := "other";
                  tb_tags := Some []; tb_tool_metadata := None |} in
  let beta := {| tb_name := "beta"; tb_description := "desc";
                 tb_tags := Some []; tb_tool_metadata := None |} in
  let r1 := serve (main_create_tool ref_encode alpha) (world_of empty_store ∅ []) in
  let r2 := serve (main_create_tool ref_encode other) (snd r1) in
  let r3 := serve (main_update_tool ref_encode 1 beta) (snd r2) in
  let r4 := serve (delete_tool_endpoint 1) (snd r3) in
  let r5 := serve (semantic_search ref_encode ref_search
                     {| sq_query := "alpha"; sq_limit := 10 |}) (snd r4) in
  t_id <$> (match fst r1 with HTTP_OK t => Some t | _ => None end) = Some 1 /\
  fst r2 = HTTP_Error 400 "Tool with this name already exists" /\
  (t_id <$> (match fst r3 with HTTP_OK t => Some t | _ => None end) = Some 1 /\
   t_name <$> (match fst r3 with HTTP_OK t => Some t | _ => None end) = Some "beta") /\
  fst r4 = HTTP_OK "Tool deleted successfully" /\
  fst r5 = HTTP_OK {| sr_query := "alpha"; sr_results := [] |}.
Proof. vm_compute. repeat split. Qed.

(** ** Concrete runs of the further properties *)

Lemma toolbox_names_unique : names_unique toolbox.
Proof.
  apply names_unique_NoDup. apply (bool_decide_unpack (NoDup _)). vm_compute. exact I.
Qed.

Lemma toolbox_keys_below_seq : keys_below_seq toolbox.
Proof.
  intros i [r Hr]. cbn in Hr.
  apply lookup_insert_Some in Hr as [[<- _] | [_ Hr]]; [cbn; lia |].
  apply lookup_singleton_Some in Hr as [<- _]. cbn. lia.
Qed.

Lemma handsaw_name_is_free : ~ name_taken toolbox "handsaw".
Proof.
  unfold name_taken. apply (bool_decide_unpack (~ _)). vm_compute. exact I.
Qed.

Lemma handsaw_name_fits_saw :
  ~ map_Exists (name_conflict "handsaw" (Some 2)) (tools toolbox).
Proof. apply (bool_decide_unpack (~ _)). vm_compute. exact I. Qed.

Lemma create_rejects_taken_name_witness :
  exists w',
    create_tool ref_encode hammer (world_of toolbox toolbox_points []) = (Return None, w') /\
    tools (db w') = tools toolbox.
Proof.
  destruct (create_rejects_taken_name ref_encode hammer
              (world_of toolbox toolbox_points []))
    as (w' & Hrun & _ & Ht & _).
  - reflexivity.
  - exists 1, (row_of hammer 0). split; [reflexivity |].
    split; [reflexivity | discriminate].
  - exists w'. auto.
Defined.

Lemma create_then_get_witness :
  exists w',
    create_tool ref_encode handsaw (world_of toolbox toolbox_points [])
    = (Return (Some (Tool_of 3 (row_of handsaw 2))), w') /\
    get_tool 3 w' = (Return (Some (Tool_of 3 (row_of handsaw 2))), w').
Proof.
  destruct (create_then_get ref_encode handsaw (world_of toolbox toolbox_points []))
    as (w' & Hrun & _ & _ & _ & Hget).
  - reflexivity.
  - reflexivity.
  - exact handsaw_name_is_free.
  - reflexivity.
  - exists w'. auto.
Defined.

Lemma create_reports_database_failure_as_taken_name_witness :
  ~ name_taken toolbox "handsaw" /\
  fst (serve (main_create_tool ref_encode handsaw)
         (world_of toolbox toolbox_points [true]))
  = HTTP_Error 400 "Tool with this name already exists".
Proof.
  split; [exact handsaw_name_is_free |].
  apply (create_reports_database_failure_as_taken_name ref_encode handsaw
           (world_of toolbox toolbox_points [true]) []).
  reflexivity.
Defined.

Lemma create_reports_failure_after_commit_witness :
  exists w',
    create_tool ref_encode handsaw (world_of toolbox toolbox_points [false; true])
    = (Return None, w') /\
    tools (db w') !! 3 = Some (row_of handsaw 2).
Proof.
  destruct (create_reports_failure_after_commit ref_encode handsaw
              (world_of toolbox toolbox_points [false; true]) [])
    as (w' & Hrun & _ & Ht & _).
  - reflexivity.
  - reflexivity.
  - exact handsaw_name_is_free.
  - reflexivity.
  - exists w'. auto.
Defined.

Lemma delete_missing_is_refused_witness :
  exists w',
    delete_tool_db 9 (world_of toolbox toolbox_points []) = (Return false, w') /\
    db w' = toolbox /\ points w' = toolbox_points.
Proof.
  destruct (delete_missing_is_refused 9 (world_of toolbox toolbox_points []))
    as (w' & Hrun & _ & Hd & Hp).
  - reflexivity.
  - exists w'. auto.
Defined.

Lemma delete_removes_exactly_that_tool_witness :
  exists w',
    delete_tool_db 1 (world_of toolbox toolbox_points []) = (Return true, w') /\
    points w' = delete 1 toolbox_points.
Proof.
  destruct (delete_removes_exactly_that_tool 1 (world_of toolbox toolbox_points []))
    as [_ Hok].
  - reflexivity.
  - apply Hok; [reflexivity | eexists; reflexivity].
Defined.

Lemma deleted_id_is_refused_everywhere_witness :
  fst (read_tool 1 (snd (delete_tool_db 1 (world_of toolbox toolbox_points []))))
  = Raise not_found /\
  fst (main_update_tool ref_encode 1 handsaw
         (snd (delete_tool_db 1 (world_of toolbox toolbox_points []))))
  = Raise update_refused /\
  fst (delete_tool_endpoint 1
         (snd (delete_tool_db 1 (world_of toolbox toolbox_points []))))
  = Raise not_found.
Proof.
  apply (deleted_id_is_refused_everywhere ref_encode 1
           (world_of toolbox toolbox_points [])
           (snd (delete_tool_db 1 (world_of toolbox toolbox_points [])))).
  - vm_compute. reflexivity.
  - reflexivity.
Defined.

Lemma update_rewrites_one_row_witness :
  exists t w',
    update_tool ref_encode 2 handsaw (world_of toolbox toolbox_points [])
    = (Return (Some t), w').
Proof.
  destruct (update_rewrites_one_row ref_encode 2 handsaw
              (world_of toolbox toolbox_points [])) as [_ Hok].
  - reflexivity.
  - apply Hok; [reflexivity | eexists; reflexivity | exact handsaw_name_fits_saw].
Defined.

Lemma create_never_overwrites_witness :
  t_id (Tool_of 3 (row_of handsaw 2)) = 3 /\ tools toolbox !! 3 = None.
Proof.
  destruct (create_never_overwrites ref_encode handsaw
              (world_of toolbox toolbox_points [])
              (Tool_of 3 (row_of handsaw 2))
              (snd (create_tool ref_encode handsaw
                      (world_of toolbox toolbox_points []))))
    as (Hid & Hfree & _).
  - reflexivity.
  - vm_compute. reflexivity.
  - split; [exact Hid | exact Hfree].
Defined.

Lemma null_tags_are_never_indexed_witness :
  points (snd (create_tool ref_encode drill (world_of toolbox toolbox_points [])))
  = toolbox_points.
Proof.
  apply (null_tags_are_never_indexed ref_encode drill
           (world_of toolbox toolbox_points [])
           (Tool_of 3 (row_of drill 2))).
  - reflexivity.
  - reflexivity.
  - left. vm_compute. reflexivity.
Defined.

Lemma writes_keep_store_well_formed_witness :
  names_unique (db (snd (create_tool ref_encode handsaw
                           (world_of toolbox toolbox_points [])))) /\
  keys_below_seq (db (snd (create_tool ref_encode handsaw
                             (world_of toolbox toolbox_points [])))).
Proof.
  destruct (writes_keep_store_well_formed ref_encode
              (world_of toolbox toolbox_points [])) as (Hcreate & _ & _).
  - reflexivity.
  - exact toolbox_names_unique.
  - exact toolbox_keys_below_seq.
  - apply Hcreate.
Defined.

Lemma tools_pages_compose_witness :
  exists p1 p2,
    get_tools 0 1 (world_of toolbox toolbox_points [])
    = (Return p1, world_of toolbox toolbox_points []) /\
    get_tools 1 1 (world_of toolbox toolbox_points [])
    = (Return p2, world_of toolbox toolbox_points []) /\
    get_tools 0 2 (world_of toolbox toolbox_points [])
    = (Return (p1 ++ p2)%list, world_of toolbox toolbox_points []).
Proof.
  destruct (tools_pages_compose 0 1 1 (world_of toolbox toolbox_points []))
    as [Hpages _].
  - reflexivity.
  - lia.
  - lia.
  - lia.
  - exact Hpages.
Defined.

Lemma tool_lookup_by_name_witness :
  get_tool_by_name "saw" (world_of toolbox toolbox_points [])
  = (Return (Some (Tool_of 2 (row_of saw 1))), world_of toolbox toolbox_points []).
Proof.
  destruct (tool_lookup_by_name "saw" (world_of toolbox toolbox_points []))
    as (_ & Hfound & _).
  apply Hfound.
  - reflexivity.
  - exact toolbox_names_unique.
  - reflexivity.
  - reflexivity.
Defined.

Lemma read_tool_returns_stored_row_witness :
  fst (read_tool 1 (world_of toolbox toolbox_points []))
  = Return (Tool_of 1 (row_of hammer 0)).
Proof.
  destruct (read_tool_returns_stored_row 1 (world_of toolbox toolbox_points []))
    as (_ & _ & _ & _ & Hok).
  apply Hok; reflexivity.
Defined.

(** The collection holds the hammer, the saw and a point without a name:
    the whole search is blanked. *)
Lemma search_blanked_by_one_bad_payload_witness :
  (exists w1, search_tools ref_encode ref_search "tool for nails" 10
                (world_of toolbox broken_points []) = (Return [], w1)) /\
  exists w', semantic_search ref_encode ref_search nails_query
               (world_of toolbox broken_points [])
             = (Return {| sr_query := "tool for nails"; sr_results := [] |}, w').
Proof.
  apply (search_blanked_by_one_bad_payload ref_encode ref_search nails_query
           (world_of toolbox broken_points [])).
  - reflexivity.
  - exists (scored (ref_encode "tool for nails") nameless_point).
    split; [vm_compute; auto | right; left; reflexivity].
Defined.

Lemma search_tools_maps_points_in_order_witness :
  exists hits w',
    search_tools ref_encode ref_search "tool for nails" 10
      (world_of toolbox toolbox_points []) = (Return hits, w') /\
    length hits = 2%nat.
Proof.
  destruct (search_tools_maps_points_in_order ref_encode ref_search
              "tool for nails" 10 (world_of toolbox toolbox_points []))
    as (hits & w' & Hrun & Hall).
  - reflexivity.
  - intros p Hp. vm_compute in Hp.
    destruct Hp as [<- | [<- | []]]; repeat split; eexists; reflexivity.
  - exists hits, w'. split; [exact Hrun |].
    rewrite <- (Forall2_length _ _ _ Hall). vm_compute. reflexivity.
Defined.

Lemma search_writes_only_history_witness :
  exists resp w',
    semantic_search ref_encode ref_search nails_query
      (world_of toolbox toolbox_points [false; false; true]) = (Return resp, w') /\
    tools (db w') = tools toolbox /\ points w' = toolbox_points.
Proof.
  destruct (search_writes_only_history ref_encode ref_search nails_query
              (world_of toolbox toolbox_points [false; false; true]))
    as (resp & w' & Hrun & Ht & _ & Hp & _).
  - reflexivity.
  - exists resp, w'. auto.
Defined.

Lemma search_records_its_response_witness :
  exists resp w',
    semantic_search ref_encode ref_search nails_query
      (world_of toolbox toolbox_points []) = (Return resp, w') /\
    search_history (db w') =
    <[1 := {| c_query := "tool for nails"; c_results := sr_results resp;
              c_recorded_at := 2 |}]> ∅.
Proof.
  destruct (search_records_its_response ref_encode ref_search nails_query
              (world_of toolbox toolbox_points []))
    as (hits & w1 & resp & w' & _ & Hrun & _ & Hh).
  - reflexivity.
  - reflexivity.
  - reflexivity.
  - exists resp, w'. auto.
Defined.

(** Startup over the toolbox: both tables are emptied, the two points stay. *)
Lemma startup_empties_store_not_index_witness :
  tools (db (snd (lifespan_startup (world_of toolbox toolbox_points [])))) = ∅ /\
  points (snd (lifespan_startup (world_of toolbox toolbox_points []))) = toolbox_points.
Proof.
  destruct (startup_empties_store_not_index ref_encode ref_search
              (world_of toolbox toolbox_points []))
    as (o & w' & Hrun & Hp & _ & Hret).
  assert (Ho : o = Return tt).
  { change (fst (o, w') = Return tt). rewrite <- Hrun. vm_compute. reflexivity. }
  rewrite Hrun. cbn [snd]. destruct (Hret Ho) as (Ht & _). auto.
Defined.

Lemma create_then_delete_restores_witness :
  exists t w1 w2,
    create_tool ref_encode handsaw (world_of toolbox toolbox_points [])
    = (Return (Some t), w1) /\
    delete_tool_db (t_id t) w1 = (Return true, w2) /\
    tools (db w2) = tools toolbox /\ points w2 = toolbox_points.
Proof.
  destruct (create_then_delete_restores ref_encode handsaw
              (world_of toolbox toolbox_points []))
    as (t & w1 & w2 & Hc & _ & Hd & Ht & Hp & _).
  - reflexivity.
  - reflexivity.
  - exact handsaw_name_is_free.
  - reflexivity.
  - reflexivity.
  - exists t, w1, w2. auto.
Defined.

(** The hammer exists, the database is down: 404 "Tool not found". *)
Lemma database_failure_reported_as_not_found_witness :
  is_Some (tools toolbox !! 1) /\
  fst (serve (delete_tool_endpoint 1) (world_of toolbox toolbox_points [true]))
  = HTTP_Error 404 "Tool not found".
Proof.
  split; [eexists; reflexivity |].
  apply (database_failure_reported_as_not_found ref_encode 1 handsaw
           (world_of toolbox toolbox_points [true]) []).
  reflexivity.
Defined.

Lemma delete_survives_index_failure_witness :
  exists w',
    delete_tool_db 1 (world_of toolbox toolbox_points [false; false; true])
    = (Return true, w') /\
    tools (db w') = delete 1 (tools toolbox) /\ points w' = toolbox_points.
Proof.
  destruct (delete_survives_index_failure 1
              (world_of toolbox toolbox_points [false; false; true]) []
              (row_of hammer 0))
    as (w' & Hrun & _ & Ht & Hp).
  - reflexivity.
  - reflexivity.
  - reflexivity.
  - exists w'. auto.
Defined.

Lemma update_survives_index_failure_witness :
  exists t w',
    update_tool ref_encode 2 handsaw
      (world_of toolbox toolbox_points [false; false; false; true])
    = (Return (Some t), w') /\
    t_name t = "handsaw" /\ points w' = toolbox_points.
Proof.
  destruct (update_survives_index_failure ref_encode 2 handsaw
              (world_of toolbox toolbox_points [false; false; false; true]) []
              (row_of saw 1))
    as (t & w' & Hrun & _ & Hname & _ & _ & _ & Hp).
  - reflexivity.
  - reflexivity.
  - reflexivity.
  - exact handsaw_name_fits_saw.
  - eexists. reflexivity.
  - exists t, w'. auto.
Defined.

(** After the update of the saw whose indexing failed, Search still returns
    the old name "saw" for tool 2, now called "handsaw" in the store. *)
Example stale_payload_after_degraded_update :
  sr_results <$>
    (match fst (semantic_search ref_encode ref_search nails_query
                  (snd (update_tool ref_encode 2 handsaw
                          (world_of toolbox toolbox_points
                             [false; false; false; true]))))
     with Return resp => Some resp | Raise _ => None end)
  = Some [saw_hit; hammer_hit] /\
  t_name <$>
    (match fst (get_tool 2
                  (snd (update_tool ref_encode 2 handsaw
                          (world_of toolbox toolbox_points
                             [false; false; false; true]))))
     with Return t => t | Raise _ => None end)
  = Some "handsaw".
Proof. split; vm_compute; reflexivity. Qed.




(** The listing while the database is down. *)
Lemma tools_listing_is_sorted_and_bounded_witness :
  fst (get_tools 0 10 (world_of toolbox toolbox_points [true])) = Return [].
Proof.
  destruct (tools_listing_is_sorted_and_bounded 0 10
              (world_of toolbox toolbox_points [true]))
    as (ts & w' & Hrun & _ & _ & _ & _ & _ & Hfail).
  rewrite Hrun. cbn [fst]. f_equal. exact (Hfail [] eq_refl).
Defined.
